(** * Directory JSON aggregators: [merge.py] and [merge_json.py]

    A shallow embedding of the two scripts and the proofs of their
    specified properties.

    Both scripts are one linear pass: list a directory, keep the names
    ending in [.json], open and parse each one, accumulate, dump the
    accumulator, print a completion line.  The embedding keeps that shape:

    - a parsed JSON document is a value of [json]; a Python [dict] is an
      association list in insertion order with unique keys, updated the way
      [dict.__setitem__] does it (existing key: value replaced in place,
      new key: appended);
    - the directory is the list of its entries in [os.listdir] order; an
      entry is a name and what sits behind it (a subdirectory, or a regular
      file described by what [json.load] does on it);
    - the effects ([open], [print], [json.dump]) are logged as a trace of
      events, and an uncaught Python exception ends the run: a computation
      is a pair of the events so far and either a value or the exception. *)

From Stdlib Require Import List String Ascii ZArith Bool Lia.
From Stdlib Require Import SpecFloat DecimalString.
From Stdlib Require Import Permutation.
Import ListNotations.
Set Warnings "-register-all".
Open Scope string_scope.
Open Scope list_scope.

(** ** Python values and the builtins the scripts use *)

Module Py.

(** What [json.load] builds: [None], [bool], [int], [float], [str],
    [list] and [dict] (with [str] keys). *)
Inductive json : Type :=
| JNull
| JBool (b : bool)
| JInt (z : Z)
| JFloat (f : spec_float)
| JStr (s : string)
| JArr (items : list json)
| JObj (members : list (string * json)).

(** A [dict] with [str] keys, in insertion order. *)
Definition dict := list (string * json).

Definition keys (d : dict) : list string := map fst d.

(** [d[k]] / [d.get(k)]. *)
Fixpoint dict_get (k : string) (d : dict) : option json :=
  match d with
  | [] => None
  | (k', v) :: d' => if String.eqb k k' then Some v else dict_get k d'
  end.

(** [d[k] = v]: an existing key keeps its position, a new key goes last. *)
Fixpoint dict_set (k : string) (v : json) (d : dict) : dict :=
  match d with
  | [] => [(k, v)]
  | (k', v') :: d' =>
      if String.eqb k k' then (k', v) :: d' else (k', v') :: dict_set k v d'
  end.

(** [d.update(data)]: one [d[k] = v] per item of [data], in its order. *)
Definition dict_update (d data : dict) : dict :=
  fold_left (fun acc kv => dict_set (fst kv) (snd kv) acc) data d.

(** [d.setdefault(k, default)]: the value now under [k], and the dict
    (with [k] inserted when it was absent). *)
Definition dict_setdefault (k : string) (default : json) (d : dict)
  : json * dict :=
  match dict_get k d with
  | Some v => (v, d)
  | None => (default, dict_set k default d)
  end.

(** [isinstance(data, dict)] and [isinstance(data, list)]. *)
Definition isinstance_dict (data : json) : bool :=
  match data with JObj _ => true | _ => false end.

Definition isinstance_list (data : json) : bool :=
  match data with JArr _ => true | _ => false end.

(** [s.endswith(suffix)]: some tail of [s] is [suffix], byte for byte. *)
Fixpoint endswith (s suffix : string) : bool :=
  String.eqb s suffix
  || match s with
     | EmptyString => false
     | String _ s' => endswith s' suffix
     end.

Definition startswith_sep (s : string) : bool :=
  match s with
  | String c _ => Ascii.eqb c "/"%char
  | EmptyString => false
  end.

(** [os.path.join(a, b)] (posixpath): an absolute [b] discards [a]; a
    separator is added unless [a] is empty or already ends with one. *)
Definition os_path_join (a b : string) : string :=
  if startswith_sep b then b
  else if String.eqb a "" || endswith a "/" then (a ++ b)%string
  else (a ++ "/" ++ b)%string.

(** [str(n)] for a [len(...)] result. *)
Definition str_of_len (n : nat) : string :=
  NilEmpty.string_of_uint (Nat.to_uint n).

(** The exceptions of the model. [JSONDecodeError] carries [str(e)],
    which the diagnostics print.  The list is not that of everything
    Python can raise here: [open] can also fail with [FileNotFoundError]
    or [PermissionError], and [json.load] with [ValueError] or
    [RecursionError]; those runs are outside the model, and nothing below
    says which exceptions are possible. *)
Inductive exn : Type :=
| JSONDecodeError (e : string)
| UnicodeDecodeError
| IsADirectoryError
| AttributeError.

End Py.
Export Py.

(** ** The source directory *)

(** What [json.load] does with a regular file's bytes: it returns the
    parsed document, raises [JSONDecodeError] (text that is not JSON), or
    raises an exception the scripts have no handler for, of which
    [UnicodeDecodeError] (bytes that are not UTF-8) is the one modelled. *)
Inductive file_content : Type :=
| Json (data : json)
| Malformed (e : string)
| Undecodable.

Inductive node : Type :=
| Directory
| RegularFile (content : file_content).

(** A directory entry; the listing is a [list dirent] in [os.listdir]
    order. *)
Record dirent : Type := mkDirent { filename : string; target : node }.

(** ** Effects *)

Inductive event : Type :=
| Open (file_path : string)            (* open(file_path, "r", encoding="utf-8") *)
| Print (line : string)                (* print(line) *)
| Dump (path : string) (obj : json).   (* json.dump(obj, open(path, "w"), indent=2) *)

Inductive result (A : Type) : Type :=
| Return (a : A)
| Raise (e : exn).
Arguments Return {A} a.
Arguments Raise {A} e.

(** A computation: the events it performed, then its value or the
    exception that ended it. *)
Definition io (A : Type) : Type := list event * result A.

Definition ret {A} (a : A) : io A := ([], Return a).

Definition raise {A} (e : exn) : io A := ([], Raise e).

Definition emit (ev : event) : io unit := ([ev], Return tt).

Definition bind {A B} (m : io A) (k : A -> io B) : io B :=
  match m with
  | (t, Return a) => let (t', r) := k a in (t ++ t', r)
  | (t, Raise e) => (t, Raise e)
  end.

Notation "x <- m ;; k" := (bind m (fun x => k))
  (at level 61, m at next level, right associativity).
Notation "m ;;; k" := (bind m (fun _ => k))
  (at level 61, right associativity).

(** [try: m  except json.JSONDecodeError as e: handler e]. *)
Definition try_except_JSONDecodeError {A} (m : io A) (handler : string -> io A)
  : io A :=
  match m with
  | (t, Raise (JSONDecodeError e)) => let (t', r) := handler e in (t ++ t', r)
  | _ => m
  end.

(** [for x in xs: acc = body acc x], stopping at the first exception. *)
Fixpoint for_each {A X} (body : A -> X -> io A) (acc : A) (xs : list X)
  : io A :=
  match xs with
  | [] => ret acc
  | x :: xs' => acc' <- body acc x ;; for_each body acc' xs'
  end.

(** [open(file_path, "r", encoding="utf-8")] on the entry behind the
    path. *)
Definition open_r (file_path : string) (e : dirent) : io file_content :=
  match target e with
  | Directory => emit (Open file_path) ;;; raise IsADirectoryError
  | RegularFile f => emit (Open file_path) ;;; ret f
  end.

(** [json.load(f)]. *)
Definition json_load (f : file_content) : io json :=
  match f with
  | Json data => ret data
  | Malformed e => raise (JSONDecodeError e)
  | Undecodable => raise UnicodeDecodeError
  end.

(** Projections of a trace. *)
Definition stdout (t : list event) : list string :=
  flat_map (fun ev => match ev with Print s => [s] | _ => [] end) t.

Definition opened (t : list event) : list string :=
  flat_map (fun ev => match ev with Open p => [p] | _ => [] end) t.

Definition written (t : list event) : list (string * json) :=
  flat_map (fun ev => match ev with Dump p o => [(p, o)] | _ => [] end) t.

(** ** merge.py: the Key-Union aggregator *)

Module Merge.

Definition folder_path : string := "./data/plans/book14".

(** [merged_data.setdefault("merged_list", []).extend(data)]: the list
    under the key is extended in place; any other value there has no
    [extend]. *)
Definition extend_merged_list (merged_data : dict) (data : list json)
  : io dict :=
  let (lst, merged_data') := dict_setdefault "merged_list" (JArr []) merged_data in
  match lst with
  | JArr items => ret (dict_set "merged_list" (JArr (items ++ data)) merged_data')
  | _ => raise AttributeError
  end.

(** The body of the [for filename in os.listdir(folder_path)] loop. *)
Definition body (merged_data : dict) (e : dirent) : io dict :=
  if endswith (filename e) ".json" then
    let file_path := os_path_join folder_path (filename e) in
    f <- open_r file_path e ;;
    try_except_JSONDecodeError
      (data <- json_load f ;;
       match data with
       | JObj members => ret (dict_update merged_data members)
       | JArr items => extend_merged_list merged_data items
       | _ => ret merged_data
       end)
      (fun err =>
         emit (Print ("Skipping " ++ filename e ++ ", invalid JSON: " ++ err)%string) ;;;
         ret merged_data)
  else ret merged_data.

Definition loop (merged_data : dict) (listing : list dirent) : io dict :=
  for_each body merged_data listing.

Definition done_line : string :=
  "✅ Merged all JSON files into merged_output.json".

(** The whole script, run on a directory listing. *)
Definition main (listing : list dirent) : io unit :=
  merged_data <- loop [] listing ;;
  emit (Dump "merged_output.json" (JObj merged_data)) ;;;
  emit (Print done_line).

End Merge.

(** ** merge_json.py: the List-Collection aggregator *)

Module MergeJson.

Definition plans_dir : string := "Data/plans".
Definition output_file : string := "Data/merged_plans.json".

Definition body (all_plans : list json) (e : dirent) : io (list json) :=
  if endswith (filename e) ".json" then
    let filepath := os_path_join plans_dir (filename e) in
    try_except_JSONDecodeError
      (f <- open_r filepath e ;;
       plan_data <- json_load f ;;
       ret (all_plans ++ [plan_data]))
      (fun err =>
         emit (Print ("❌ Error in " ++ filename e ++ ": " ++ err)%string) ;;;
         ret all_plans)
  else ret all_plans.

Definition loop (all_plans : list json) (listing : list dirent)
  : io (list json) :=
  for_each body all_plans listing.

Definition done_line (all_plans : list json) : string :=
  ("✅ Merged " ++ str_of_len (List.length all_plans) ++ " files into " ++ output_file)%string.

Definition main (listing : list dirent) : io unit :=
  all_plans <- loop [] listing ;;
  emit (Dump output_file (JArr all_plans)) ;;;
  emit (Print (done_line all_plans)).

End MergeJson.

(** ** Sample directories *)

Module Samples.

Definition file (name : string) (data : json) : dirent :=
  mkDirent name (RegularFile (Json data)).

Definition broken (name : string) : dirent :=
  mkDirent name
    (RegularFile
       (Malformed
          "Expecting property name enclosed in double quotes: line 1 column 2 (char 1)")).

End Samples.


(** ** The loop bodies as relations

    The body of each script's loop once more, as a relation with one rule
    per path through it.  [Merge.body] and [MergeJson.body] compute them
    (see [merge_body_iff] and [merge_json_body_iff]); the proofs below
    analyse a turn of the loop by inversion on these rules. *)

Inductive merge_step : dict -> dirent -> list event -> result dict -> Prop :=
| merge_other_name md e :
    endswith (filename e) ".json" = false ->
    merge_step md e [] (Return md)
| merge_directory md e :
    endswith (filename e) ".json" = true ->
    target e = Directory ->
    merge_step md e [Open (os_path_join Merge.folder_path (filename e))]
      (Raise IsADirectoryError)
| merge_undecodable md e :
    endswith (filename e) ".json" = true ->
    target e = RegularFile Undecodable ->
    merge_step md e [Open (os_path_join Merge.folder_path (filename e))]
      (Raise UnicodeDecodeError)
| merge_malformed md e err :
    endswith (filename e) ".json" = true ->
    target e = RegularFile (Malformed err) ->
    merge_step md e
      [Open (os_path_join Merge.folder_path (filename e));
       Print ("Skipping " ++ filename e ++ ", invalid JSON: " ++ err)%string]
      (Return md)
| merge_dict md e members :
    endswith (filename e) ".json" = true ->
    target e = RegularFile (Json (JObj members)) ->
    merge_step md e [Open (os_path_join Merge.folder_path (filename e))]
      (Return (dict_update md members))
| merge_list_first md e items :
    endswith (filename e) ".json" = true ->
    target e = RegularFile (Json (JArr items)) ->
    dict_get "merged_list" md = None ->
    merge_step md e [Open (os_path_join Merge.folder_path (filename e))]
      (Return (dict_set "merged_list" (JArr ([] ++ items))
                 (dict_set "merged_list" (JArr []) md)))
| merge_list_more md e items old :
    endswith (filename e) ".json" = true ->
    target e = RegularFile (Json (JArr items)) ->
    dict_get "merged_list" md = Some (JArr old) ->
    merge_step md e [Open (os_path_join Merge.folder_path (filename e))]
      (Return (dict_set "merged_list" (JArr (old ++ items)) md))
| merge_list_no_extend md e items v :
    endswith (filename e) ".json" = true ->
    target e = RegularFile (Json (JArr items)) ->
    dict_get "merged_list" md = Some v ->
    isinstance_list v = false ->
    merge_step md e [Open (os_path_join Merge.folder_path (filename e))]
      (Raise AttributeError)
| merge_scalar md e data :
    endswith (filename e) ".json" = true ->
    target e = RegularFile (Json data) ->
    isinstance_dict data = false ->
    isinstance_list data = false ->
    merge_step md e [Open (os_path_join Merge.folder_path (filename e))]
      (Return md).

Inductive merge_json_step
  : list json -> dirent -> list event -> result (list json) -> Prop :=
| collect_other_name plans e :
    endswith (filename e) ".json" = false ->
    merge_json_step plans e [] (Return plans)
| collect_directory plans e :
    endswith (filename e) ".json" = true ->
    target e = Directory ->
    merge_json_step plans e
      [Open (os_path_join MergeJson.plans_dir (filename e))]
      (Raise IsADirectoryError)
| collect_undecodable plans e :
    endswith (filename e) ".json" = true ->
    target e = RegularFile Undecodable ->
    merge_json_step plans e
      [Open (os_path_join MergeJson.plans_dir (filename e))]
      (Raise UnicodeDecodeError)
| collect_malformed plans e err :
    endswith (filename e) ".json" = true ->
    target e = RegularFile (Malformed err) ->
    merge_json_step plans e
      [Open (os_path_join MergeJson.plans_dir (filename e));
       Print ("❌ Error in " ++ filename e ++ ": " ++ err)%string]
      (Return plans)
| collect_plan plans e plan_data :
    endswith (filename e) ".json" = true ->
    target e = RegularFile (Json plan_data) ->
    merge_json_step plans e
      [Open (os_path_join MergeJson.plans_dir (filename e))]
      (Return (plans ++ [plan_data])).

(** ** Vocabulary of the specification *)

(** The entry's name passes the extension test of both scripts. *)
Definition has_json_name (e : dirent) : bool := endswith (filename e) ".json".

(** A candidate whose text is not JSON. *)
Definition is_invalid (e : dirent) : bool :=
  has_json_name e
  && match target e with RegularFile (Malformed _) => true | _ => false end.

(** The diagnostic each script prints for an invalid candidate. *)
Definition merge_diagnostics (e : dirent) : list string :=
  if has_json_name e then
    match target e with
    | RegularFile (Malformed err) =>
        [("Skipping " ++ filename e ++ ", invalid JSON: " ++ err)%string]
    | _ => []
    end
  else [].

Definition merge_json_diagnostics (e : dirent) : list string :=
  if has_json_name e then
    match target e with
    | RegularFile (Malformed err) =>
        [("❌ Error in " ++ filename e ++ ": " ++ err)%string]
    | _ => []
    end
  else [].

(** The document of a successfully parsed candidate. *)
Definition parsed (e : dirent) : list json :=
  if has_json_name e then
    match target e with
    | RegularFile (Json data) => [data]
    | _ => []
    end
  else [].

(** Opening and loading the entry raises nothing the scripts do not
    catch. *)
Definition loads_or_skips (e : dirent) : bool :=
  negb (has_json_name e)
  || match target e with
     | RegularFile (Json _) | RegularFile (Malformed _) => true
     | _ => false
     end.

Definition has_key (k : string) (members : dict) : bool :=
  existsb (fun kv => String.eqb k (fst kv)) members.

(** The elements a sequence-shaped candidate contributes. *)
Definition sequence_of (e : dirent) : list (list json) :=
  if has_json_name e then
    match target e with
    | RegularFile (Json (JArr items)) => [items]
    | _ => []
    end
  else [].

(** A mapping-shaped candidate that has the key [k]. *)
Definition mapping_with_key (k : string) (e : dirent) : bool :=
  has_json_name e
  && match target e with
     | RegularFile (Json (JObj members)) => has_key k members
     | _ => false
     end.

(** A candidate whose processing can change what the accumulator holds
    under [k]: a mapping with that key, or, for the reserved key, a
    sequence. *)
Definition touches (k : string) (e : dirent) : bool :=
  mapping_with_key k e
  || (String.eqb k "merged_list"
      && match sequence_of e with [] => false | _ => true end).

(** An entry the Key-Union loop passes without raising, whatever the
    accumulator holds: not a candidate, or a regular file that is
    malformed, a scalar or a mapping. *)
Definition mapping_or_skipped (e : dirent) : bool :=
  negb (has_json_name e)
  || match target e with
     | RegularFile (Malformed _) => true
     | RegularFile (Json (JArr _)) => false
     | RegularFile (Json _) => true
     | _ => false
     end.

(** An entry that leaves the reserved key alone and cannot raise: as
    above, but a mapping must not have the key ["merged_list"]. *)
Definition leaves_reserved_key (e : dirent) : bool :=
  mapping_or_skipped e && negb (mapping_with_key "merged_list" e).

(** What the reserved key holds after the sequences [seqs] were
    collected: nothing when there were none. *)
Definition collected (seqs : list (list json)) : option json :=
  match seqs with
  | [] => None
  | _ => Some (JArr (List.concat seqs))
  end.

(** The sequence under the reserved key once [seqs] were appended to
    what was there ([None]: the key was absent). *)
Definition extended (o : option (list json)) (seqs : list (list json))
  : option (list json) :=
  match seqs with
  | [] => o
  | _ => Some (match o with Some old => old | None => [] end ++ List.concat seqs)
  end.

(** The accumulator has no reserved key ([None]) or a sequence under it. *)
Definition reserved_is (o : option (list json)) (md : dict) : Prop :=
  dict_get "merged_list" md = option_map JArr o.

(** An entry the loop passes without raising as long as the reserved key
    holds a sequence, and that keeps it so. *)
Definition sequence_or_leaves_reserved_key (e : dirent) : bool :=
  leaves_reserved_key e
  || (has_json_name e
      && match target e with
         | RegularFile (Json (JArr _)) => true
         | _ => false
         end).

(** ** Further vocabulary *)

(** The path each script opens for an entry. *)
Definition merge_path (e : dirent) : string :=
  os_path_join Merge.folder_path (filename e).

Definition merge_json_path (e : dirent) : string :=
  os_path_join MergeJson.plans_dir (filename e).

(** The members a mapping-shaped candidate contributes. *)
Definition mapping_of (e : dirent) : list dict :=
  if has_json_name e then
    match target e with
    | RegularFile (Json (JObj members)) => [members]
    | _ => []
    end
  else [].

(** An entry the Key-Union loop passes without raising when no mapping
    is around: not a candidate, or a regular file that is malformed, a
    scalar or a sequence. *)
Definition sequence_or_skipped (e : dirent) : bool :=
  negb (has_json_name e)
  || match target e with
     | RegularFile (Malformed _) => true
     | RegularFile (Json (JObj _)) => false
     | RegularFile (Json _) => true
     | _ => false
     end.

(** The accumulator that holds the reserved key only. *)
Definition only_reserved (o : option (list json)) : dict :=
  match o with
  | None => []
  | Some items => [("merged_list", JArr items)]
  end.

(** * Proofs *)

Arguments endswith : simpl never.
Arguments os_path_join : simpl never.
Arguments String.append : simpl never.

(** ** The trace monad and the loop *)

Lemma bind_ret_l {A B} (a : A) (k : A -> io B) : bind (ret a) k = k a.
Proof. unfold bind, ret. destruct (k a); reflexivity. Qed.

Lemma bind_assoc {A B C} (m : io A) (k : A -> io B) (h : B -> io C) :
  bind (bind m k) h = bind m (fun a => bind (k a) h).
Proof.
  destruct m as [t [a|e]]; simpl; [|reflexivity].
  destruct (k a) as [t1 [b|e]]; simpl; [|reflexivity].
  destruct (h b) as [t2 r]. now rewrite app_assoc.
Qed.

Lemma bind_ext {A B} (m : io A) (k k' : A -> io B) :
  (forall a, k a = k' a) -> bind m k = bind m k'.
Proof. intros H. destruct m as [t [a|e]]; simpl; [now rewrite H|reflexivity]. Qed.

Lemma bind_returned {A B} (m : io A) (k : A -> io B) t a :
  m = (t, Return a) -> bind m k = (t ++ fst (k a), snd (k a)).
Proof. intros ->. simpl. now destruct (k a). Qed.

Lemma bind_raised {A B} (m : io A) (k : A -> io B) t e :
  m = (t, Raise e) -> bind m k = (t, Raise e).
Proof. now intros ->. Qed.

Lemma for_each_cons {A X} (body : A -> X -> io A) x xs acc :
  for_each body acc (x :: xs)
  = bind (body acc x) (fun acc' => for_each body acc' xs).
Proof. reflexivity. Qed.

Lemma for_each_app {A X} (body : A -> X -> io A) xs ys acc :
  for_each body acc (xs ++ ys)
  = bind (for_each body acc xs) (fun acc' => for_each body acc' ys).
Proof.
  revert acc. induction xs as [|x xs IH]; intros acc.
  - cbn [app for_each]. now rewrite bind_ret_l.
  - cbn [app]. rewrite !for_each_cons, bind_assoc.
    apply bind_ext. intros a. apply IH.
Qed.

(** Entries the body passes over do not show in the loop. *)
Lemma for_each_filter {A X} (body : A -> X -> io A) (keep : X -> bool) xs :
  (forall acc x, keep x = false -> body acc x = ret acc) ->
  forall acc, for_each body acc xs = for_each body acc (filter keep xs).
Proof.
  intros Hskip. induction xs as [|x xs IH]; intros acc; [reflexivity|].
  cbn [filter]. destruct (keep x) eqn:K.
  - rewrite !for_each_cons. apply bind_ext. intros a. apply IH.
  - rewrite for_each_cons, (Hskip acc x K), bind_ret_l. apply IH.
Qed.

Lemma opened_app t t' : opened (t ++ t') = opened t ++ opened t'.
Proof. apply flat_map_app. Qed.

Lemma stdout_app t t' : stdout (t ++ t') = stdout t ++ stdout t'.
Proof. apply flat_map_app. Qed.

Lemma written_app t t' : written (t ++ t') = written t ++ written t'.
Proof. apply flat_map_app. Qed.

(** ** Strings *)

Lemma endswith_app a b suffix :
  endswith b suffix = true -> endswith (a ++ b)%string suffix = true.
Proof.
  intros H. induction a as [|c a IH]; [exact H|].
  change (String c a ++ b)%string with (String c (a ++ b)%string).
  unfold endswith; fold endswith. rewrite IH. apply orb_true_r.
Qed.

Lemma endswith_os_path_join a b suffix :
  endswith b suffix = true -> endswith (os_path_join a b) suffix = true.
Proof.
  intros H. unfold os_path_join.
  destruct (startswith_sep b); [exact H|].
  destruct (String.eqb a "" || endswith a "/").
  - now apply endswith_app.
  - apply endswith_app. now apply endswith_app.
Qed.
Example run_two_dicts :
  Merge.main [Samples.file "a.json" (JObj [("k", JInt 1); ("x", JNull)]);
              Samples.file "b.json" (JObj [("k", JInt 2)])]
  = ([Open "./data/plans/book14/a.json"; Open "./data/plans/book14/b.json";
      Dump "merged_output.json" (JObj [("k", JInt 2); ("x", JNull)]);
      Print Merge.done_line],
     Return tt).
Proof. reflexivity. Qed.

Example run_five_one_broken :
  MergeJson.main [Samples.file "a.json" (JInt 1); Samples.broken "b.json";
                  Samples.file "c.json" (JArr []); Samples.file "d.json" JNull;
                  Samples.file "e.json" (JObj [])]
  = ([Open "Data/plans/a.json"; Open "Data/plans/b.json";
      Print "❌ Error in b.json: Expecting property name enclosed in double quotes: line 1 column 2 (char 1)";
      Open "Data/plans/c.json"; Open "Data/plans/d.json"; Open "Data/plans/e.json";
      Dump "Data/merged_plans.json" (JArr [JInt 1; JArr []; JNull; JObj []]);
      Print "✅ Merged 4 files into Data/merged_plans.json"],
     Return tt).
Proof. reflexivity. Qed.

(** ** The loop bodies, rule by rule *)

Lemma merge_body_step md e :
  merge_step md e (fst (Merge.body md e)) (snd (Merge.body md e)).
Proof.
  unfold Merge.body, open_r.
  destruct (endswith (filename e) ".json") eqn:N; [|now constructor].
  destruct (target e) as [|[data|err|]] eqn:T; cbn.
  - eapply merge_directory; eauto.
  - destruct data; cbn.
    all: try (eapply merge_scalar; eauto; fail).
    + unfold Merge.extend_merged_list, dict_setdefault.
      destruct (dict_get "merged_list" md) as [v|] eqn:G; cbn.
      * destruct v; cbn.
        all: try (eapply merge_list_no_extend; eauto; fail).
        eapply merge_list_more; eauto.
      * eapply merge_list_first; eauto.
    + eapply merge_dict; eauto.
  - eapply merge_malformed; eauto.
  - eapply merge_undecodable; eauto.
Qed.

Lemma merge_json_body_step plans e :
  merge_json_step plans e
    (fst (MergeJson.body plans e)) (snd (MergeJson.body plans e)).
Proof.
  unfold MergeJson.body, open_r.
  destruct (endswith (filename e) ".json") eqn:N; [|now constructor].
  destruct (target e) as [|[data|err|]] eqn:T; cbn.
  - eapply collect_directory; eauto.
  - eapply collect_plan; eauto.
  - eapply collect_malformed; eauto.
  - eapply collect_undecodable; eauto.
Qed.

(** ** Determinism of the rules *)

Ltac clash :=
  match goal with
  | H1 : ?x = _, H2 : ?x = _ |- _ => rewrite H1 in H2; inversion H2; subst
  end.

Lemma merge_step_functional md e t1 r1 t2 r2 :
  merge_step md e t1 r1 -> merge_step md e t2 r2 -> t1 = t2 /\ r1 = r2.
Proof.
  intros H1 H2.
  inversion H1; subst; inversion H2; subst; try (split; reflexivity);
    repeat clash; try discriminate; try (split; reflexivity).
Qed.

Lemma merge_json_step_functional plans e t1 r1 t2 r2 :
  merge_json_step plans e t1 r1 -> merge_json_step plans e t2 r2 ->
  t1 = t2 /\ r1 = r2.
Proof.
  intros H1 H2.
  inversion H1; subst; inversion H2; subst; try (split; reflexivity);
    repeat clash; try discriminate; try (split; reflexivity).
Qed.

(** ** Dictionaries *)

Lemma dict_get_set_eq k v d : dict_get k (dict_set k v d) = Some v.
Proof.
  induction d as [|[k' v'] d IH]; cbn.
  - now rewrite String.eqb_refl.
  - destruct (String.eqb k k') eqn:E; cbn; rewrite E; [reflexivity|exact IH].
Qed.

Lemma dict_get_set_neq k k' v d :
  k <> k' -> dict_get k (dict_set k' v d) = dict_get k d.
Proof.
  intros N. induction d as [|[k0 v0] d IH]; cbn.
  - apply String.eqb_neq in N. now rewrite N.
  - destruct (String.eqb k' k0) eqn:E; cbn.
    + apply String.eqb_eq in E. subst k0.
      apply String.eqb_neq in N. now rewrite N.
    + destruct (String.eqb k k0); [reflexivity|exact IH].
Qed.

Lemma dict_update_cons d k v data :
  dict_update d ((k, v) :: data) = dict_update (dict_set k v d) data.
Proof. reflexivity. Qed.

(** [update] leaves alone the keys its argument does not have. *)
Lemma dict_get_update_other k data :
  has_key k data = false ->
  forall d, dict_get k (dict_update d data) = dict_get k d.
Proof.
  induction data as [|[k' v'] data IH]; intros H d; [reflexivity|].
  cbn in H. apply orb_false_iff in H. destruct H as [N H].
  rewrite dict_update_cons, (IH H).
  apply dict_get_set_neq. now apply String.eqb_neq.
Qed.

Lemma dict_get_In k v d : dict_get k d = Some v -> In (k, v) d.
Proof.
  induction d as [|[k' v'] d IH]; cbn; [discriminate|].
  destruct (String.eqb k k') eqn:E.
  - apply String.eqb_eq in E. intros [= ->]. subst. now left.
  - intros H. right. now apply IH.
Qed.

Lemma has_key_false_not_In k d : ~ In k (keys d) -> has_key k d = false.
Proof.
  induction d as [|[k' v'] d IH]; cbn; intros H; [reflexivity|].
  apply orb_false_iff. split.
  - apply String.eqb_neq. intros ->. apply H. now left.
  - apply IH. intros I. apply H. now right.
Qed.

(** [update] with a dict (unique keys) leaves each of its keys with the
    argument's value: overwrite, whatever was there. *)
Lemma dict_get_update_In k v data :
  NoDup (keys data) -> In (k, v) data ->
  forall d, dict_get k (dict_update d data) = Some v.
Proof.
  induction data as [|[k' v'] data IH]; intros ND I d; [destruct I|].
  cbn in ND. inversion ND as [|? ? Hnotin ND']; subst.
  rewrite dict_update_cons. destruct I as [E|I].
  - inversion E; subst.
    rewrite dict_get_update_other by now apply has_key_false_not_In.
    apply dict_get_set_eq.
  - now apply IH.
Qed.

(** [update] keeps the keys unique. *)
Lemma dict_set_keys k v d :
  keys (dict_set k v d) = if has_key k d then keys d else keys d ++ [k].
Proof.
  unfold keys. induction d as [|[k' v'] d IH]; cbn; [reflexivity|].
  destruct (String.eqb k k') eqn:E; cbn; [reflexivity|].
  rewrite IH. unfold has_key. now destruct (existsb _ d).
Qed.

Lemma has_key_In k d : has_key k d = true -> In k (keys d).
Proof.
  induction d as [|[k' v'] d IH]; cbn; [discriminate|].
  destruct (String.eqb k k') eqn:E.
  - apply String.eqb_eq in E. now left.
  - intros H. right. now apply IH.
Qed.

Lemma dict_set_NoDup k v d : NoDup (keys d) -> NoDup (keys (dict_set k v d)).
Proof.
  intros ND. rewrite dict_set_keys. destruct (has_key k d) eqn:H; [exact ND|].
  apply NoDup_app; [exact ND|repeat constructor; now intros []|].
  intros x Hx [E|[]]. subst x.
  assert (has_key k d = true) as C; [|congruence].
  clear -Hx. unfold has_key.
  induction d as [|[k' v'] d IH]; cbn in *; [destruct Hx|].
  destruct Hx as [->|Hx]; [now rewrite String.eqb_refl|].
  rewrite (IH Hx). apply orb_true_r.
Qed.

Lemma dict_update_NoDup data d :
  NoDup (keys d) -> NoDup (keys (dict_update d data)).
Proof.
  revert d. induction data as [|[k v] data IH]; intros d ND; [exact ND|].
  rewrite dict_update_cons. apply IH. now apply dict_set_NoDup.
Qed.

(** ** The bodies as equations *)

Lemma merge_body_iff md e t r :
  Merge.body md e = (t, r) <-> merge_step md e t r.
Proof.
  pose proof (merge_body_step md e) as B. split.
  - intros E. now rewrite E in B.
  - intros S. destruct (merge_step_functional _ _ _ _ _ _ B S) as [<- <-].
    now destruct (Merge.body md e).
Qed.

Lemma merge_json_body_iff plans e t r :
  MergeJson.body plans e = (t, r) <-> merge_json_step plans e t r.
Proof.
  pose proof (merge_json_body_step plans e) as B. split.
  - intros E. now rewrite E in B.
  - intros S. destruct (merge_json_step_functional _ _ _ _ _ _ B S) as [<- <-].
    now destruct (MergeJson.body plans e).
Qed.

Lemma merge_body_other_name md e :
  has_json_name e = false -> Merge.body md e = ret md.
Proof. intros H. apply merge_body_iff. now constructor. Qed.

Lemma merge_json_body_other_name plans e :
  has_json_name e = false -> MergeJson.body plans e = ret plans.
Proof. intros H. apply merge_json_body_iff. now constructor. Qed.

(** Every candidate is opened, and nothing else is. *)
Lemma merge_body_opened md e :
  opened (fst (Merge.body md e))
  = if has_json_name e
    then [os_path_join Merge.folder_path (filename e)] else [].
Proof.
  destruct (Merge.body md e) as [t r] eqn:B. apply merge_body_iff in B.
  unfold has_json_name.
  inversion B; subst;
    match goal with H : endswith _ _ = _ |- _ => rewrite H end; reflexivity.
Qed.

Lemma merge_json_body_opened plans e :
  opened (fst (MergeJson.body plans e))
  = if has_json_name e
    then [os_path_join MergeJson.plans_dir (filename e)] else [].
Proof.
  destruct (MergeJson.body plans e) as [t r] eqn:B.
  apply merge_json_body_iff in B. unfold has_json_name.
  inversion B; subst;
    match goal with H : endswith _ _ = _ |- _ => rewrite H end; reflexivity.
Qed.

(** What a loop opened was the path of a candidate of the listing. *)
Lemma for_each_opened {A} (body : A -> dirent -> io A) (dir : string) :
  (forall acc e,
      opened (fst (body acc e))
      = if has_json_name e then [os_path_join dir (filename e)] else []) ->
  forall listing acc p,
    In p (opened (fst (for_each body acc listing))) ->
    exists e, In e listing /\ has_json_name e = true
              /\ p = os_path_join dir (filename e).
Proof.
  intros Hbody. induction listing as [|e listing IH]; intros acc p I.
  - destruct I.
  - rewrite for_each_cons in I. specialize (Hbody acc e).
    destruct (body acc e) as [t [acc'|x]] eqn:B; cbn [fst] in Hbody.
    + rewrite (bind_returned _ _ t acc' eq_refl) in I. cbn [fst] in I.
      rewrite opened_app in I. apply in_app_or in I. destruct I as [I|I].
      * rewrite Hbody in I. destruct (has_json_name e) eqn:N; [|destruct I].
        destruct I as [<-|[]]. exists e. repeat split; auto. now left.
      * destruct (IH _ _ I) as (e' & I' & N & E).
        exists e'. repeat split; auto. now right.
    + rewrite (bind_raised _ _ t x eq_refl) in I. cbn [fst] in I.
      rewrite Hbody in I. destruct (has_json_name e) eqn:N; [|destruct I].
      destruct I as [<-|[]]. exists e. repeat split; auto. now left.
Qed.

Lemma merge_main_opened listing :
  opened (fst (Merge.main listing))
  = opened (fst (Merge.loop [] listing)).
Proof.
  unfold Merge.main. destruct (Merge.loop [] listing) as [t [md|e]]; cbn.
  - rewrite opened_app. cbn. apply app_nil_r.
  - reflexivity.
Qed.

Lemma merge_json_main_opened listing :
  opened (fst (MergeJson.main listing))
  = opened (fst (MergeJson.loop [] listing)).
Proof.
  unfold MergeJson.main.
  destruct (MergeJson.loop [] listing) as [t [md|e]]; cbn.
  - rewrite opened_app. cbn. apply app_nil_r.
  - reflexivity.
Qed.

Lemma merge_main_filter listing :
  Merge.main listing = Merge.main (filter has_json_name listing).
Proof.
  unfold Merge.main, Merge.loop.
  now rewrite (for_each_filter Merge.body has_json_name listing
                 merge_body_other_name).
Qed.

Lemma merge_json_main_filter listing :
  MergeJson.main listing = MergeJson.main (filter has_json_name listing).
Proof.
  unfold MergeJson.main, MergeJson.loop.
  now rewrite (for_each_filter MergeJson.body has_json_name listing
                 merge_json_body_other_name).
Qed.

(** ** Extension filtering *)

Lemma filter_none {X} (keep : X -> bool) xs :
  (forall x, In x xs -> keep x = false) -> filter keep xs = [].
Proof.
  induction xs as [|x xs IH]; intros H; [reflexivity|].
  cbn. rewrite (H x (or_introl eq_refl)). apply IH.
  intros y I. apply H. now right.
Qed.

Lemma filter_drop {X} (keep : X -> bool) xs x ys :
  keep x = false -> filter keep (xs ++ x :: ys) = filter keep (xs ++ ys).
Proof. intros H. rewrite !filter_app. cbn. now rewrite H. Qed.

Lemma merge_main_opened_candidates listing p :
  In p (opened (fst (Merge.main listing))) ->
  exists e, In e listing /\ endswith (filename e) ".json" = true
            /\ p = os_path_join Merge.folder_path (filename e).
Proof.
  rewrite merge_main_opened.
  apply (for_each_opened Merge.body Merge.folder_path merge_body_opened).
Qed.

Lemma merge_json_main_opened_candidates listing p :
  In p (opened (fst (MergeJson.main listing))) ->
  exists e, In e listing /\ endswith (filename e) ".json" = true
            /\ p = os_path_join MergeJson.plans_dir (filename e).
Proof.
  rewrite merge_json_main_opened.
  apply (for_each_opened MergeJson.body MergeJson.plans_dir
           merge_json_body_opened).
Qed.

(** C6 (as amended). Both aggregators take as candidates exactly the
    entries whose name ends in the byte string [.json]: a run over a
    listing is the run over its entries with that suffix, every path opened
    is that of such an entry, and such an entry is opened whatever it is,
    a subdirectory included (the entry's kind is never examined). *)
Theorem extension_filtering (listing : list dirent) :
  Merge.main listing = Merge.main (filter has_json_name listing)
  /\ MergeJson.main listing = MergeJson.main (filter has_json_name listing)
  /\ (forall p, In p (opened (fst (Merge.main listing))) ->
        exists e, In e listing /\ endswith (filename e) ".json" = true
                  /\ p = os_path_join Merge.folder_path (filename e))
  /\ (forall p, In p (opened (fst (MergeJson.main listing))) ->
        exists e, In e listing /\ endswith (filename e) ".json" = true
                  /\ p = os_path_join MergeJson.plans_dir (filename e))
  /\ (forall e md plans, endswith (filename e) ".json" = true ->
        opened (fst (Merge.body md e))
        = [os_path_join Merge.folder_path (filename e)]
        /\ opened (fst (MergeJson.body plans e))
           = [os_path_join MergeJson.plans_dir (filename e)]).
Proof.
  split; [apply merge_main_filter|].
  split; [apply merge_json_main_filter|].
  split; [|split].
  - apply merge_main_opened_candidates.
  - apply merge_json_main_opened_candidates.
  - intros e md plans N.
    rewrite merge_body_opened, merge_json_body_opened.
    unfold has_json_name. now rewrite N.
Qed.

Lemma extension_filtering_witness :
  Merge.main [mkDirent "README.md" Directory;
              Samples.file "a.json" (JObj [("k", JInt 1)])]
  = Merge.main [Samples.file "a.json" (JObj [("k", JInt 1)])]
  /\ opened (fst (Merge.body [] (mkDirent "sub.json" Directory)))
     = ["./data/plans/book14/sub.json"].
Proof.
  split.
  - exact (proj1 (extension_filtering
                    [mkDirent "README.md" Directory;
                     Samples.file "a.json" (JObj [("k", JInt 1)])])).
  - exact (proj1 (proj2 (proj2 (proj2 (proj2 (extension_filtering []))))
                    (mkDirent "sub.json" Directory) [] [] eq_refl)).
Defined.

(** C6, as stated, fails: a subdirectory whose name ends in [.json] is
    opened by both scripts, and the uncaught [IsADirectoryError] ends the
    run before anything is written. *)
Lemma json_named_subdirectory_is_opened :
  Merge.main [mkDirent "sub.json" Directory]
  = ([Open "./data/plans/book14/sub.json"], Raise IsADirectoryError)
  /\ MergeJson.main [mkDirent "sub.json" Directory]
     = ([Open "Data/plans/sub.json"], Raise IsADirectoryError).
Proof. split; reflexivity. Qed.

Lemma main_drop_entry listing pre e post :
  has_json_name e = false -> listing = pre ++ e :: post ->
  Merge.main listing = Merge.main (pre ++ post)
  /\ MergeJson.main listing = MergeJson.main (pre ++ post).
Proof.
  intros N ->.
  rewrite merge_main_filter, merge_json_main_filter, (filter_drop _ _ _ _ N).
  now rewrite <- merge_main_filter, <- merge_json_main_filter.
Qed.

Lemma opened_paths_end_in_json listing p :
  In p (opened (fst (Merge.main listing)))
  \/ In p (opened (fst (MergeJson.main listing))) ->
  endswith p ".json" = true.
Proof.
  intros [I|I];
    [apply merge_main_opened_candidates in I
    |apply merge_json_main_opened_candidates in I];
    destruct I as (e & _ & N & ->); now apply endswith_os_path_join.
Qed.

(** C8. An entry named [notes.txt] or [plan.JSON], whatever it holds,
    is never opened by either aggregator, and the whole run (every event,
    the written document included) is the run over the directory without
    that entry. *)
Theorem other_extensions_excluded
        (pre post : list dirent) (name : string) (held : node) :
  name = "notes.txt" \/ name = "plan.JSON" ->
  let listing := pre ++ mkDirent name held :: post in
  Merge.main listing = Merge.main (pre ++ post)
  /\ MergeJson.main listing = MergeJson.main (pre ++ post)
  /\ ~ In (os_path_join Merge.folder_path name)
          (opened (fst (Merge.main listing)))
  /\ ~ In (os_path_join MergeJson.plans_dir name)
          (opened (fst (MergeJson.main listing))).
Proof.
  intros Hname listing.
  assert (has_json_name (mkDirent name held) = false) as N
      by (destruct Hname as [-> | ->]; reflexivity).
  destruct (main_drop_entry listing pre _ post N eq_refl) as [E1 E2].
  repeat split; auto.
  - intros I.
    pose proof (opened_paths_end_in_json listing _ (or_introl I)) as C.
    destruct Hname as [-> | ->]; discriminate C.
  - intros I.
    pose proof (opened_paths_end_in_json listing _ (or_intror I)) as C.
    destruct Hname as [-> | ->]; discriminate C.
Qed.

Lemma other_extensions_excluded_witness :
  Merge.main [Samples.file "a.json" (JObj [("k", JInt 1)]);
              Samples.file "plan.JSON" (JObj [("k", JInt 2)])]
  = Merge.main [Samples.file "a.json" (JObj [("k", JInt 1)])].
Proof.
  exact (proj1 (other_extensions_excluded
                  [Samples.file "a.json" (JObj [("k", JInt 1)])] []
                  "plan.JSON" (RegularFile (Json (JObj [("k", JInt 2)])))
                  (or_intror eq_refl))).
Defined.

(** ** Empty directories *)

(** C9. When no entry of the directory has a name ending in [.json],
    the Key-Union aggregator dumps the empty mapping to its output file
    and the List-Collection aggregator dumps the empty array and reports a
    merge count of 0; both end normally. *)
Theorem empty_directory_behavior (listing : list dirent) :
  (forall e, In e listing -> endswith (filename e) ".json" = false) ->
  Merge.main listing
  = ([Dump "merged_output.json" (JObj []);
      Print "✅ Merged all JSON files into merged_output.json"],
     Return tt)
  /\ MergeJson.main listing
     = ([Dump "Data/merged_plans.json" (JArr []);
         Print "✅ Merged 0 files into Data/merged_plans.json"],
        Return tt).
Proof.
  intros H.
  rewrite merge_main_filter, merge_json_main_filter.
  rewrite (filter_none has_json_name listing H).
  split; reflexivity.
Qed.

Lemma empty_directory_behavior_witness :
  written (fst (Merge.main [mkDirent "notes.txt" (RegularFile (Json JNull));
                            mkDirent "old" Directory]))
  = [("merged_output.json", JObj [])].
Proof.
  assert (forall e,
             In e [mkDirent "notes.txt" (RegularFile (Json JNull));
                   mkDirent "old" Directory] ->
             endswith (filename e) ".json" = false) as H.
  { intros e [<-|[<-|[]]]; reflexivity. }
  rewrite (proj1 (empty_directory_behavior _ H)). reflexivity.
Defined.

(** ** Scalars in the Key-Union aggregator *)

Lemma merge_body_scalar md e data :
  endswith (filename e) ".json" = true ->
  target e = RegularFile (Json data) ->
  isinstance_dict data = false -> isinstance_list data = false ->
  Merge.body md e
  = ([Open (os_path_join Merge.folder_path (filename e))], Return md).
Proof. intros. apply merge_body_iff. eapply merge_scalar; eauto. Qed.

(** C7. A candidate whose top-level value is neither a mapping nor a
    sequence is opened and parsed, the accumulator stays as it was,
    nothing is printed and nothing is raised; the run goes on and ends,
    prints and writes exactly as it does without that file. *)
Theorem scalar_silently_dropped
        (pre post : list dirent) (e : dirent) (data : json) :
  endswith (filename e) ".json" = true ->
  target e = RegularFile (Json data) ->
  isinstance_dict data = false ->
  isinstance_list data = false ->
  (forall md,
      Merge.body md e
      = ([Open (os_path_join Merge.folder_path (filename e))], Return md))
  /\ snd (Merge.main (pre ++ e :: post)) = snd (Merge.main (pre ++ post))
  /\ stdout (fst (Merge.main (pre ++ e :: post)))
     = stdout (fst (Merge.main (pre ++ post)))
  /\ written (fst (Merge.main (pre ++ e :: post)))
     = written (fst (Merge.main (pre ++ post))).
Proof.
  intros N T D L.
  assert (forall md,
             Merge.body md e
             = ([Open (os_path_join Merge.folder_path (filename e))],
                Return md)) as B
      by (intros md; now apply merge_body_scalar with data).
  split; [exact B|].
  unfold Merge.main, Merge.loop. rewrite !for_each_app.
  destruct (for_each Merge.body [] pre) as [t [md|x]]; [|now cbn].
  rewrite (bind_returned _ _ t md eq_refl).
  rewrite (bind_returned _ (fun acc' => for_each Merge.body acc' post)
             t md eq_refl).
  rewrite for_each_cons, (bind_returned _ _ _ _ (B md)). cbv beta.
  destruct (for_each Merge.body md post) as [t' [md'|x]]; cbn;
    rewrite ?stdout_app, ?written_app; cbn;
    rewrite ?stdout_app, ?written_app; cbn; auto.
Qed.

Lemma scalar_silently_dropped_witness :
  written (fst (Merge.main [Samples.file "a.json" (JObj [("k", JInt 1)]);
                            Samples.file "n.json" (JStr "hello")]))
  = written (fst (Merge.main [Samples.file "a.json" (JObj [("k", JInt 1)])])).
Proof.
  exact (proj2 (proj2 (proj2
    (scalar_silently_dropped
       [Samples.file "a.json" (JObj [("k", JInt 1)])] []
       (Samples.file "n.json" (JStr "hello")) (JStr "hello")
       eq_refl eq_refl eq_refl eq_refl)))).
Defined.

(** ** The List-Collection aggregator *)

Lemma merge_json_step_returned plans e t plans' :
  merge_json_step plans e t (Return plans') ->
  plans' = plans ++ parsed e
  /\ stdout t = merge_json_diagnostics e
  /\ written t = [].
Proof.
  intros S. unfold parsed, merge_json_diagnostics, has_json_name.
  inversion S; subst;
    match goal with H : endswith _ _ = _ |- _ => rewrite H end;
    try match goal with H : target _ = _ |- _ => rewrite H end;
    cbn; rewrite ?app_nil_r; auto.
Qed.

Lemma merge_json_step_raised plans e t x :
  merge_json_step plans e t (Raise x) ->
  loads_or_skips e = false /\ stdout t = [] /\ written t = [].
Proof.
  intros S. unfold loads_or_skips, has_json_name.
  inversion S; subst;
    match goal with H : endswith _ _ = _ |- _ => rewrite H end;
    match goal with H : target _ = _ |- _ => rewrite H end; auto.
Qed.

Lemma merge_json_loop_returned listing plans t plans' :
  MergeJson.loop plans listing = (t, Return plans') ->
  plans' = plans ++ flat_map parsed listing
  /\ stdout t = flat_map merge_json_diagnostics listing
  /\ written t = [].
Proof.
  unfold MergeJson.loop. revert plans t.
  induction listing as [|e listing IH]; intros plans t E.
  - inversion E; subst. cbn. now rewrite app_nil_r.
  - rewrite for_each_cons in E.
    destruct (MergeJson.body plans e) as [t1 [plans1|x]] eqn:B;
      [|discriminate E].
    rewrite (bind_returned _ _ t1 plans1 eq_refl) in E.
    destruct (for_each MergeJson.body plans1 listing) as [t2 r2] eqn:L.
    cbn in E. inversion E; subst.
    apply merge_json_body_iff, merge_json_step_returned in B.
    destruct B as (-> & O1 & W1).
    destruct (IH _ _ L) as (-> & O2 & W2).
    cbn [flat_map]. rewrite stdout_app, written_app, O1, O2, W1, W2.
    now rewrite app_assoc.
Qed.

Lemma merge_json_loop_raised listing plans t x :
  MergeJson.loop plans listing = (t, Raise x) ->
  forallb loads_or_skips listing = false
  /\ incl (stdout t) (flat_map merge_json_diagnostics listing)
  /\ written t = [].
Proof.
  unfold MergeJson.loop. revert plans t.
  induction listing as [|e listing IH]; intros plans t E; [discriminate E|].
  rewrite for_each_cons in E.
  destruct (MergeJson.body plans e) as [t1 [plans1|x1]] eqn:B.
  - rewrite (bind_returned _ _ t1 plans1 eq_refl) in E.
    destruct (for_each MergeJson.body plans1 listing) as [t2 r2] eqn:L.
    cbn in E. inversion E; subst.
    apply merge_json_body_iff, merge_json_step_returned in B.
    destruct B as (_ & O1 & W1).
    destruct (IH _ _ L) as (F & O2 & W2).
    cbn [flat_map forallb]. rewrite F, andb_false_r.
    rewrite stdout_app, written_app, O1, W1, W2.
    repeat split; auto. now apply incl_app_app; [apply incl_refl|].
  - cbn in E. inversion E; subst.
    apply merge_json_body_iff, merge_json_step_raised in B.
    destruct B as (F & O & W). cbn [forallb]. rewrite F, O, W.
    repeat split; auto. intros ? [].
Qed.

(** C4. Whenever the List-Collection aggregator reaches its completion
    message, the output array holds the parsed value of every candidate
    that parsed, whole and in listing order, and the message reports the
    length of that array: the number of successfully parsed files, not of
    entries scanned.  It reaches it whenever every candidate either parses
    or is malformed JSON; a run ended by an uncaught exception writes
    nothing and prints no completion message. *)
Theorem list_collection_count_accuracy (listing : list dirent) :
  (forallb loads_or_skips listing = true ->
   snd (MergeJson.main listing) = Return tt)
  /\ (forall t, MergeJson.main listing = (t, Return tt) ->
        written t
        = [("Data/merged_plans.json", JArr (flat_map parsed listing))]
        /\ stdout t
           = flat_map merge_json_diagnostics listing
             ++ [("✅ Merged "
                  ++ str_of_len (List.length (flat_map parsed listing))
                  ++ " files into Data/merged_plans.json")%string])
  /\ (forall t x, MergeJson.main listing = (t, Raise x) ->
        written t = []
        /\ incl (stdout t) (flat_map merge_json_diagnostics listing)).
Proof.
  unfold MergeJson.main.
  destruct (MergeJson.loop [] listing) as [t0 [plans|x0]] eqn:L.
  - destruct (merge_json_loop_returned _ _ _ _ L) as (-> & O & W).
    cbn. repeat split.
    + inversion H; subst. rewrite written_app, W. reflexivity.
    + inversion H; subst. rewrite stdout_app, O. reflexivity.
    + discriminate H.
    + discriminate H.
  - destruct (merge_json_loop_raised _ _ _ _ L) as (F & O & W).
    cbn. repeat split.
    + congruence.
    + discriminate H.
    + discriminate H.
    + inversion H; subst. exact W.
    + inversion H; subst. exact O.
Qed.

Lemma list_collection_count_accuracy_witness :
  let listing :=
    [Samples.file "a.json" (JInt 1); Samples.broken "b.json";
     Samples.file "c.json" (JArr []); Samples.file "d.json" JNull;
     Samples.file "e.json" (JObj [])] in
  snd (MergeJson.main listing) = Return tt
  /\ written (fst (MergeJson.main listing))
     = [("Data/merged_plans.json", JArr [JInt 1; JArr []; JNull; JObj []])]
  /\ stdout (fst (MergeJson.main listing))
     = ["❌ Error in b.json: Expecting property name enclosed in double quotes: line 1 column 2 (char 1)";
        "✅ Merged 4 files into Data/merged_plans.json"].
Proof.
  intros listing. split.
  - exact (proj1 (list_collection_count_accuracy listing) eq_refl).
  - exact (proj1 (proj2 (list_collection_count_accuracy listing))
             (fst (MergeJson.main listing)) eq_refl).
Defined.

(** ** The Key-Union aggregator: what a run prints and writes *)

Lemma merge_step_quiet md e t r :
  merge_step md e t r ->
  written t = []
  /\ stdout t = match r with Return _ => merge_diagnostics e | Raise _ => [] end.
Proof.
  intros S. unfold merge_diagnostics, has_json_name.
  inversion S; subst;
    try match goal with H : endswith _ _ = _ |- _ => rewrite H end;
    try match goal with H : target _ = _ |- _ => rewrite H end;
    cbn; auto.
Qed.

Lemma merge_loop_quiet listing md t r :
  Merge.loop md listing = (t, r) ->
  written t = []
  /\ (forall md', r = Return md' ->
                  stdout t = flat_map merge_diagnostics listing).
Proof.
  unfold Merge.loop. revert md t r.
  induction listing as [|e listing IH]; intros md t r E.
  - inversion E; subst. now split.
  - rewrite for_each_cons in E.
    destruct (Merge.body md e) as [t1 [md1|x1]] eqn:B.
    + rewrite (bind_returned _ _ t1 md1 eq_refl) in E.
      destruct (for_each Merge.body md1 listing) as [t2 r2] eqn:L.
      cbn in E. inversion E; subst.
      apply merge_body_iff, merge_step_quiet in B. destruct B as [W1 O1].
      destruct (IH _ _ _ L) as [W2 O2].
      rewrite written_app, W1, W2. split; [reflexivity|].
      intros md' ->. cbn [flat_map].
      now rewrite stdout_app, O1, (O2 md' eq_refl).
    + cbn in E. inversion E; subst.
      apply merge_body_iff, merge_step_quiet in B. destruct B as [W1 _].
      split; [exact W1|]. intros md' C. discriminate C.
Qed.

Lemma merge_main_by_loop listing :
  snd (Merge.main listing)
  = match snd (Merge.loop [] listing) with
    | Return _ => Return tt
    | Raise x => Raise x
    end
  /\ written (fst (Merge.main listing))
     = match snd (Merge.loop [] listing) with
       | Return md => [("merged_output.json", JObj md)]
       | Raise _ => []
       end
  /\ stdout (fst (Merge.main listing))
     = stdout (fst (Merge.loop [] listing))
       ++ match snd (Merge.loop [] listing) with
          | Return _ => [Merge.done_line]
          | Raise _ => []
          end.
Proof.
  unfold Merge.main.
  destruct (Merge.loop [] listing) as [t [md|x]] eqn:L;
    destruct (merge_loop_quiet _ _ _ _ L) as [W _]; cbn [bind emit fst snd].
  - rewrite written_app, stdout_app, W. auto.
  - rewrite W, app_nil_r. auto.
Qed.

Lemma merge_body_malformed md e err :
  endswith (filename e) ".json" = true ->
  target e = RegularFile (Malformed err) ->
  Merge.body md e
  = ([Open (os_path_join Merge.folder_path (filename e));
      Print ("Skipping " ++ filename e ++ ", invalid JSON: " ++ err)%string],
     Return md).
Proof. intros. apply merge_body_iff. now apply merge_malformed. Qed.

Lemma is_invalid_inv e :
  is_invalid e = true ->
  endswith (filename e) ".json" = true
  /\ exists err, target e = RegularFile (Malformed err).
Proof.
  unfold is_invalid, has_json_name. intros H.
  apply andb_true_iff in H. destruct H as [N T]. split; [exact N|].
  destruct (target e) as [|[data|err|]]; try discriminate T. now exists err.
Qed.

(** The loop over a listing ends as the loop over its valid part does. *)
Lemma merge_loop_skip_invalid listing md :
  snd (Merge.loop md listing)
  = snd (Merge.loop md (filter (fun e => negb (is_invalid e)) listing)).
Proof.
  unfold Merge.loop. revert md.
  induction listing as [|e listing IH]; intros md; [reflexivity|].
  cbn [filter]. destruct (is_invalid e) eqn:I; cbn [negb].
  - destruct (is_invalid_inv e I) as (N & err & T).
    rewrite for_each_cons,
      (bind_returned _ _ _ _ (merge_body_malformed md e err N T)).
    apply IH.
  - rewrite !for_each_cons.
    destruct (Merge.body md e) as [t1 [md1|x1]]; [|reflexivity].
    rewrite !(bind_returned _ _ t1 md1 eq_refl). apply IH.
Qed.

Lemma merge_diagnostics_invalid_only listing :
  flat_map merge_diagnostics listing
  = flat_map merge_diagnostics (filter is_invalid listing).
Proof.
  induction listing as [|e listing IH]; [reflexivity|].
  cbn [flat_map filter]. destruct (is_invalid e) eqn:I.
  - cbn [flat_map]. now rewrite IH.
  - rewrite <- IH. unfold merge_diagnostics, is_invalid in *.
    destruct (has_json_name e); [|reflexivity].
    destruct (target e) as [|[data|err|]]; try reflexivity. discriminate I.
Qed.

(** C3 (as amended). A candidate with malformed JSON gets one diagnostic
    line naming it and the parse error, leaves the accumulator as it was
    and does not stop the loop.  The run over the directory ends the way
    the run over its other entries does and writes the same document; when
    it ends normally, what it printed is one diagnostic per malformed
    candidate, in listing order, then the completion line. *)
Theorem skip_on_malformed_json (listing : list dirent) :
  let valid := filter (fun e => negb (is_invalid e)) listing in
  (forall e err md,
      endswith (filename e) ".json" = true ->
      target e = RegularFile (Malformed err) ->
      Merge.body md e
      = ([Open (os_path_join Merge.folder_path (filename e));
          Print ("Skipping " ++ filename e ++ ", invalid JSON: " ++ err)%string],
         Return md))
  /\ snd (Merge.main listing) = snd (Merge.main valid)
  /\ written (fst (Merge.main listing)) = written (fst (Merge.main valid))
  /\ (snd (Merge.main listing) = Return tt ->
      stdout (fst (Merge.main listing))
      = flat_map merge_diagnostics (filter is_invalid listing)
        ++ [Merge.done_line])
  /\ (forall e, is_invalid e = true ->
        exists err,
          target e = RegularFile (Malformed err)
          /\ merge_diagnostics e
             = [("Skipping " ++ filename e ++ ", invalid JSON: " ++ err)%string]).
Proof.
  intros valid.
  destruct (merge_main_by_loop listing) as (R & W & O).
  destruct (merge_main_by_loop valid) as (R' & W' & _).
  pose proof (merge_loop_skip_invalid listing []) as S. fold valid in S.
  split; [intros e err md; now apply merge_body_malformed|].
  split; [now rewrite R, R', S|].
  split; [now rewrite W, W', S|].
  split.
  - intros C. rewrite O.
    destruct (Merge.loop [] listing) as [t [md|x]] eqn:L; cbn [fst snd] in *.
    + destruct (merge_loop_quiet _ _ _ _ L) as [_ Q].
      now rewrite (Q md eq_refl), merge_diagnostics_invalid_only.
    + rewrite R in C. discriminate C.
  - intros e I. destruct (is_invalid_inv e I) as (N & err & T).
    exists err. split; [exact T|].
    unfold merge_diagnostics, has_json_name. now rewrite N, T.
Qed.

Lemma skip_on_malformed_json_witness :
  stdout (fst (Merge.main
                 [Samples.file "a.json" (JObj [("k", JInt 1)]);
                  Samples.broken "b.json";
                  Samples.file "c.json" (JArr [JInt 2]);
                  Samples.file "d.json" (JObj [("x", JNull)])]))
  = ["Skipping b.json, invalid JSON: Expecting property name enclosed in double quotes: line 1 column 2 (char 1)";
     Merge.done_line].
Proof.
  exact (proj1 (proj2 (proj2 (proj2
    (skip_on_malformed_json
       [Samples.file "a.json" (JObj [("k", JInt 1)]);
        Samples.broken "b.json";
        Samples.file "c.json" (JArr [JInt 2]);
        Samples.file "d.json" (JObj [("x", JNull)])])))) eq_refl).
Defined.

(** C3, as stated, fails: with two valid files and one malformed file in
    the directory, the run can end with an uncaught exception, before the
    malformed file is reached and without any output. *)
Lemma valid_files_can_abort_the_run :
  Merge.main [Samples.file "a.json" (JObj [("merged_list", JInt 1)]);
              Samples.file "b.json" (JArr [JInt 2]);
              Samples.broken "c.json"]
  = ([Open "./data/plans/book14/a.json"; Open "./data/plans/book14/b.json"],
     Raise AttributeError).
Proof. reflexivity. Qed.

(** ** The reserved key *)

Lemma bind_returned_inv {A B} (m : io A) (k : A -> io B) t b :
  bind m k = (t, Return b) ->
  exists t1 a t2, m = (t1, Return a) /\ k a = (t2, Return b) /\ t = t1 ++ t2.
Proof.
  destruct m as [t1 [a|x]]; cbn; [|discriminate].
  destruct (k a) as [t2 r] eqn:K. intros E. inversion E; subst.
  now exists t1, a, t2.
Qed.

Lemma for_each_total {A X} (body : A -> X -> io A)
      (Inv : A -> Prop) (ok : X -> bool) :
  (forall acc x, Inv acc -> ok x = true ->
                 exists t acc', body acc x = (t, Return acc') /\ Inv acc') ->
  forall xs acc, Inv acc -> forallb ok xs = true ->
                 exists t acc', for_each body acc xs = (t, Return acc') /\ Inv acc'.
Proof.
  intros Hbody. induction xs as [|x xs IH]; intros acc I F.
  - now exists [], acc.
  - cbn in F. apply andb_true_iff in F. destruct F as [Fx F].
    destruct (Hbody acc x I Fx) as (t1 & acc1 & B & I1).
    destruct (IH acc1 I1 F) as (t2 & acc2 & L & I2).
    exists (t1 ++ t2), acc2. split; [|exact I2].
    rewrite for_each_cons, (bind_returned _ _ _ _ B), L. reflexivity.
Qed.

Lemma extended_app o s1 s2 :
  extended (extended o s1) s2 = extended o (s1 ++ s2).
Proof.
  destruct s1 as [|a s1]; [reflexivity|].
  destruct s2 as [|b s2]; [now rewrite app_nil_r|].
  cbn [extended app]. destruct o; cbn [List.concat];
    rewrite concat_app; cbn [List.concat]; now rewrite <- ?app_assoc.
Qed.

Lemma collected_extended seqs :
  collected seqs = option_map JArr (extended None seqs).
Proof. now destruct seqs. Qed.

Lemma reserved_is_inj o md v :
  reserved_is o md -> dict_get "merged_list" md = v ->
  v = option_map JArr o.
Proof. unfold reserved_is. congruence. Qed.

Lemma mapping_with_key_false k e members :
  mapping_with_key k e = false ->
  endswith (filename e) ".json" = true ->
  target e = RegularFile (Json (JObj members)) ->
  has_key k members = false.
Proof.
  unfold mapping_with_key, has_json_name. intros H N T.
  now rewrite N, T in H.
Qed.

(** One turn of the loop keeps the reserved key a sequence, extended by
    the file's elements when the file is a sequence, unless the file is a
    mapping with that key. *)
Lemma merge_step_reserved o md e t md' :
  merge_step md e t (Return md') ->
  mapping_with_key "merged_list" e = false ->
  reserved_is o md ->
  reserved_is (extended o (sequence_of e)) md'.
Proof.
  intros S M R. unfold sequence_of, has_json_name.
  inversion S; subst;
    match goal with H : endswith _ _ = _ |- _ => rewrite H end;
    try match goal with H : target _ = _ |- _ => rewrite H end;
    cbn [extended]; auto.
  - unfold reserved_is.
    rewrite dict_get_update_other by (eapply mapping_with_key_false; eauto).
    exact R.
  - match goal with
    | H : dict_get _ md = None |- _ =>
        apply (reserved_is_inj _ _ _ R) in H;
        destruct o; [discriminate H|]
    end.
    unfold reserved_is. rewrite dict_get_set_eq. cbn.
    now rewrite app_nil_r.
  - match goal with
    | H : dict_get _ md = Some _ |- _ =>
        apply (reserved_is_inj _ _ _ R) in H;
        destruct o as [l|]; [|discriminate H];
        cbn in H; inversion H; subst
    end.
    unfold reserved_is. rewrite dict_get_set_eq. cbn.
    now rewrite app_nil_r.
  - destruct data; try discriminate; exact R.
Qed.

Lemma merge_loop_reserved listing o md t md' :
  Merge.loop md listing = (t, Return md') ->
  forallb (fun e => negb (mapping_with_key "merged_list" e)) listing = true ->
  reserved_is o md ->
  reserved_is (extended o (flat_map sequence_of listing)) md'.
Proof.
  unfold Merge.loop. revert o md t.
  induction listing as [|e listing IH]; intros o md t L F R.
  - inversion L; subst. exact R.
  - cbn in F. apply andb_true_iff in F. destruct F as [Fe F].
    apply negb_true_iff in Fe.
    rewrite for_each_cons in L.
    apply bind_returned_inv in L. destruct L as (t1 & md1 & t2 & B & L & ->).
    apply merge_body_iff in B.
    cbn [flat_map]. rewrite <- extended_app.
    apply (IH _ _ _ L F). now apply (merge_step_reserved _ _ _ _ _ B).
Qed.

Lemma leaves_reserved_key_inv e :
  leaves_reserved_key e = true ->
  mapping_with_key "merged_list" e = false /\ sequence_of e = [].
Proof.
  unfold leaves_reserved_key, mapping_or_skipped, sequence_of.
  intros H. apply andb_true_iff in H. destruct H as [H M].
  apply negb_true_iff in M. split; [exact M|].
  destruct (has_json_name e); [|reflexivity]. cbn in H.
  destruct (target e) as [|[[]|err|]]; try reflexivity; discriminate H.
Qed.

Lemma sequence_or_leaves_reserved_key_inv e :
  sequence_or_leaves_reserved_key e = true ->
  mapping_with_key "merged_list" e = false.
Proof.
  unfold sequence_or_leaves_reserved_key. intros H.
  apply orb_true_iff in H. destruct H as [H|H].
  - now apply leaves_reserved_key_inv.
  - apply andb_true_iff in H. destruct H as [N T].
    unfold mapping_with_key. rewrite N.
    destruct (target e) as [|[[]|err|]]; try reflexivity; discriminate T.
Qed.

(** Such an entry never makes the loop body raise. *)
Lemma merge_step_total_reserved md e :
  (exists o, reserved_is o md) ->
  sequence_or_leaves_reserved_key e = true ->
  exists t md', Merge.body md e = (t, Return md')
                /\ exists o', reserved_is o' md'.
Proof.
  intros [o R] H.
  pose proof (sequence_or_leaves_reserved_key_inv e H) as M.
  assert (exists t md', merge_step md e t (Return md')) as (t & md' & S).
  { unfold sequence_or_leaves_reserved_key, leaves_reserved_key,
      mapping_or_skipped, has_json_name in H.
    destruct (endswith (filename e) ".json") eqn:N;
      [|eexists _, _; now apply merge_other_name].
    destruct (target e) as [|[data|err|]] eqn:T; try discriminate H.
    - destruct data;
        try (eexists _, _; eapply merge_scalar; eauto; fail).
      + destruct o as [old|]; unfold reserved_is in R; cbn in R.
        * eexists _, _. eapply merge_list_more; eauto.
        * eexists _, _. eapply merge_list_first; eauto.
      + eexists _, _. eapply merge_dict; eauto.
    - eexists _, _. eapply merge_malformed; eauto. }
  exists t, md'. split; [now apply merge_body_iff|].
  eexists. eapply merge_step_reserved; eauto.
Qed.

Lemma merge_body_dict md e members :
  endswith (filename e) ".json" = true ->
  target e = RegularFile (Json (JObj members)) ->
  Merge.body md e
  = ([Open (os_path_join Merge.folder_path (filename e))],
     Return (dict_update md members)).
Proof. intros. apply merge_body_iff. now apply merge_dict. Qed.

(** C5 (as amended). At every point of a run, that is after any prefix
    of the listing, as long as no mapping-shaped file with the key
    ["merged_list"] was processed, the reserved key is absent when no
    sequence-shaped file was processed and otherwise holds the elements of
    the sequence-shaped files processed so far, in order.  A mapping-shaped
    file with the key ["merged_list"] replaces what is under it, as for any
    other key. *)
Theorem reserved_key_invariant (prefix rest : list dirent) :
  Merge.loop [] (prefix ++ rest)
  = bind (Merge.loop [] prefix) (fun md => Merge.loop md rest)
  /\ (forall t md,
        Merge.loop [] prefix = (t, Return md) ->
        forallb (fun e => negb (mapping_with_key "merged_list" e)) prefix
        = true ->
        dict_get "merged_list" md = collected (flat_map sequence_of prefix))
  /\ (forall e members v md,
        endswith (filename e) ".json" = true ->
        target e = RegularFile (Json (JObj members)) ->
        NoDup (keys members) ->
        In ("merged_list", v) members ->
        exists t md',
          Merge.body md e = (t, Return md')
          /\ dict_get "merged_list" md' = Some v).
Proof.
  split; [apply for_each_app|]. split.
  - intros t md L F. rewrite collected_extended.
    apply (merge_loop_reserved _ None _ _ _ L F). reflexivity.
  - intros e members v md N T ND I.
    eexists _, _. split; [exact (merge_body_dict md e members N T)|].
    now apply dict_get_update_In.
Qed.

Lemma reserved_key_invariant_witness :
  exists t md,
    Merge.loop [] [Samples.file "a.json" (JArr [JStr "x"]);
                   Samples.file "k.json" (JObj [("k", JInt 1)]);
                   Samples.file "b.json" (JArr [JStr "y"; JStr "z"])]
    = (t, Return md)
    /\ dict_get "merged_list" md = Some (JArr [JStr "x"; JStr "y"; JStr "z"]).
Proof.
  eexists _, _. split; [reflexivity|].
  exact (proj1 (proj2 (reserved_key_invariant
    [Samples.file "a.json" (JArr [JStr "x"]);
     Samples.file "k.json" (JObj [("k", JInt 1)]);
     Samples.file "b.json" (JArr [JStr "y"; JStr "z"])] []))
    _ _ eq_refl eq_refl).
Defined.

(** C5, as stated, fails: a mapping-shaped file with the key
    ["merged_list"] replaces the sequence collected so far, here by a
    string. *)
Lemma reserved_key_replaced_by_mapping :
  Merge.loop [] [Samples.file "a.json" (JArr [JStr "x"])]
  = ([Open "./data/plans/book14/a.json"],
     Return [("merged_list", JArr [JStr "x"])])
  /\ Merge.loop [] [Samples.file "a.json" (JArr [JStr "x"]);
                    Samples.file "b.json" (JObj [("merged_list", JStr "oops")])]
     = ([Open "./data/plans/book14/a.json"; Open "./data/plans/book14/b.json"],
        Return [("merged_list", JStr "oops")]).
Proof. split; reflexivity. Qed.

(** ** The two laws of the Key-Union aggregator *)

Lemma merge_main_returned listing t md :
  Merge.loop [] listing = (t, Return md) ->
  Merge.main listing
  = (t ++ [Dump "merged_output.json" (JObj md); Print Merge.done_line],
     Return tt).
Proof. unfold Merge.main. now intros ->. Qed.

Lemma merge_main_returned_inv listing t :
  Merge.main listing = (t, Return tt) ->
  exists t0 md,
    Merge.loop [] listing = (t0, Return md)
    /\ written t = [("merged_output.json", JObj md)].
Proof.
  unfold Merge.main. intros E.
  destruct (Merge.loop [] listing) as [t0 [md|x]] eqn:L; [|discriminate E].
  exists t0, md. split; [reflexivity|].
  destruct (merge_loop_quiet _ _ _ _ L) as [W _].
  cbn in E. inversion E; subst. now rewrite written_app, W.
Qed.

Lemma sequence_file_inv e items :
  endswith (filename e) ".json" = true ->
  target e = RegularFile (Json (JArr items)) ->
  sequence_or_leaves_reserved_key e = true /\ sequence_of e = [items].
Proof.
  intros N T.
  unfold sequence_or_leaves_reserved_key, sequence_of, has_json_name.
  rewrite N, T. split; [apply orb_true_r|reflexivity].
Qed.

Lemma flat_map_sequence_of_leaves listing :
  forallb leaves_reserved_key listing = true ->
  flat_map sequence_of listing = []
  /\ forallb sequence_or_leaves_reserved_key listing = true.
Proof.
  induction listing as [|e listing IH]; [now split|].
  cbn. intros H. apply andb_true_iff in H. destruct H as [He H].
  destruct (IH H) as [-> ->].
  destruct (leaves_reserved_key_inv e He) as [_ ->].
  unfold sequence_or_leaves_reserved_key. now rewrite He.
Qed.

(** C2 (as amended). With two sequence-shaped candidates of N and M
    elements in the directory, every other entry being either not named
    [*.json] or a regular file that is malformed, a scalar or a mapping
    without the key ["merged_list"], the run ends normally and its output
    has under ["merged_list"] the N+M elements of the two files, those of
    the file processed first coming first.  The key is created holding the
    empty sequence when the accumulator does not have it. *)
Theorem list_concatenation_law
        (pre mid post : list dirent) (e1 e2 : dirent) (items1 items2 : list json) :
  endswith (filename e1) ".json" = true ->
  target e1 = RegularFile (Json (JArr items1)) ->
  endswith (filename e2) ".json" = true ->
  target e2 = RegularFile (Json (JArr items2)) ->
  forallb leaves_reserved_key (pre ++ mid ++ post) = true ->
  (exists t md,
      Merge.main (pre ++ e1 :: mid ++ e2 :: post) = (t, Return tt)
      /\ written t = [("merged_output.json", JObj md)]
      /\ dict_get "merged_list" md = Some (JArr (items1 ++ items2))
      /\ List.length (items1 ++ items2)
         = List.length items1 + List.length items2)
  /\ (forall md,
         dict_get "merged_list" md = None ->
         exists md',
           dict_setdefault "merged_list" (JArr []) md = (JArr [], md')
           /\ dict_get "merged_list" md' = Some (JArr [])).
Proof.
  intros N1 T1 N2 T2 F. split.
  - rewrite !forallb_app in F.
    apply andb_true_iff in F. destruct F as [Fpre F].
    apply andb_true_iff in F. destruct F as [Fmid Fpost].
    destruct (flat_map_sequence_of_leaves _ Fpre) as [Spre Opre].
    destruct (flat_map_sequence_of_leaves _ Fmid) as [Smid Omid].
    destruct (flat_map_sequence_of_leaves _ Fpost) as [Spost Opost].
    destruct (sequence_file_inv e1 items1 N1 T1) as [O1 S1].
    destruct (sequence_file_inv e2 items2 N2 T2) as [O2 S2].
    set (listing := pre ++ e1 :: mid ++ e2 :: post).
    assert (forallb sequence_or_leaves_reserved_key listing = true) as O.
    { unfold listing. rewrite forallb_app. cbn [forallb].
      rewrite forallb_app. cbn [forallb].
      now rewrite Opre, O1, Omid, O2, Opost. }
    assert (flat_map sequence_of listing = [items1; items2]) as S.
    { unfold listing. rewrite flat_map_app. cbn [flat_map].
      rewrite flat_map_app. cbn [flat_map].
      now rewrite Spre, S1, Smid, S2, Spost. }
    destruct (for_each_total Merge.body (fun md => exists o, reserved_is o md)
                sequence_or_leaves_reserved_key merge_step_total_reserved
                listing [] (ex_intro _ None eq_refl) O)
      as (t & md & L & _).
    fold (Merge.loop [] listing) in L.
    exists (t ++ [Dump "merged_output.json" (JObj md); Print Merge.done_line]), md.
    split; [now apply merge_main_returned|].
    split.
    + destruct (merge_loop_quiet _ _ _ _ L) as [W _].
      now rewrite written_app, W.
    + split; [|apply length_app].
      assert (forallb (fun e => negb (mapping_with_key "merged_list" e)) listing
              = true) as M.
      { apply forallb_forall. intros e I. apply negb_true_iff.
        apply sequence_or_leaves_reserved_key_inv.
        now apply (proj1 (forallb_forall _ _) O). }
      pose proof (merge_loop_reserved _ None _ _ _ L M eq_refl) as R.
      rewrite S in R. unfold reserved_is in R. rewrite R. cbn.
      now rewrite app_nil_r.
  - intros md G. unfold dict_setdefault. rewrite G.
    eexists. split; [reflexivity|]. apply dict_get_set_eq.
Qed.

Lemma list_concatenation_law_witness :
  exists t md,
    Merge.main [Samples.file "a.json" (JArr [JInt 1; JInt 2]);
                Samples.file "x.json" (JObj [("k", JNull)]);
                Samples.file "b.json" (JArr [JInt 3; JInt 4; JInt 5])]
    = (t, Return tt)
    /\ written t = [("merged_output.json", JObj md)]
    /\ dict_get "merged_list" md
       = Some (JArr ([JInt 1; JInt 2] ++ [JInt 3; JInt 4; JInt 5]))
    /\ List.length ([JInt 1; JInt 2] ++ [JInt 3; JInt 4; JInt 5]) = 2 + 3.
Proof.
  exact (proj1 (list_concatenation_law
    [] [Samples.file "x.json" (JObj [("k", JNull)])] []
    (Samples.file "a.json" (JArr [JInt 1; JInt 2]))
    (Samples.file "b.json" (JArr [JInt 3; JInt 4; JInt 5]))
    [JInt 1; JInt 2] [JInt 3; JInt 4; JInt 5]
    eq_refl eq_refl eq_refl eq_refl eq_refl)).
Defined.

(** C2, as stated, fails: a mapping-shaped file with the key
    ["merged_list"] between the two sequence-shaped files replaces what the
    first one left there, so the output holds neither N+M elements nor the
    concatenation of the two sequences. *)
Lemma mapping_between_sequences_breaks_concatenation :
  Merge.main [Samples.file "a.json" (JArr [JInt 1]);
              Samples.file "x.json" (JObj [("merged_list", JArr [JInt 9; JInt 8])]);
              Samples.file "b.json" (JArr [JInt 2])]
  = ([Open "./data/plans/book14/a.json"; Open "./data/plans/book14/x.json";
      Open "./data/plans/book14/b.json";
      Dump "merged_output.json"
        (JObj [("merged_list", JArr [JInt 9; JInt 8; JInt 2])]);
      Print Merge.done_line],
     Return tt)
  /\ List.length [JInt 9; JInt 8; JInt 2]
     <> List.length [JInt 1] + List.length [JInt 2].
Proof. split; [reflexivity|discriminate]. Qed.

(** A file that does not touch [k] leaves the accumulator's [k] alone. *)
Lemma merge_step_untouched k md e t md' :
  merge_step md e t (Return md') ->
  touches k e = false ->
  dict_get k md' = dict_get k md.
Proof.
  intros S H. unfold touches in H. apply orb_false_iff in H.
  destruct H as [M Q].
  assert (forall items, target e = RegularFile (Json (JArr items)) ->
                        endswith (filename e) ".json" = true ->
                        k <> "merged_list") as K.
  { intros items T N. unfold sequence_of, has_json_name in Q.
    rewrite N, T, andb_true_r in Q. now apply String.eqb_neq. }
  inversion S; subst; auto.
  - apply dict_get_update_other. eapply mapping_with_key_false; eauto.
  - rewrite !dict_get_set_neq; eauto.
  - rewrite dict_get_set_neq; eauto.
Qed.

Lemma merge_loop_untouched k listing md t md' :
  Merge.loop md listing = (t, Return md') ->
  forallb (fun e => negb (touches k e)) listing = true ->
  dict_get k md' = dict_get k md.
Proof.
  unfold Merge.loop. revert md t.
  induction listing as [|e listing IH]; intros md t L F.
  - now inversion L.
  - cbn in F. apply andb_true_iff in F. destruct F as [Fe F].
    apply negb_true_iff in Fe.
    rewrite for_each_cons in L.
    apply bind_returned_inv in L. destruct L as (t1 & md1 & t2 & B & L & ->).
    apply merge_body_iff in B.
    rewrite (IH _ _ L F). now apply (merge_step_untouched _ _ _ _ _ B).
Qed.

Lemma merge_step_total_mapping md e :
  True -> mapping_or_skipped e = true ->
  exists t md', Merge.body md e = (t, Return md') /\ True.
Proof.
  intros _ H.
  assert (exists t md', merge_step md e t (Return md')) as (t & md' & S).
  { unfold mapping_or_skipped, has_json_name in H.
    destruct (endswith (filename e) ".json") eqn:N;
      [|eexists _, _; now apply merge_other_name].
    destruct (target e) as [|[data|err|]] eqn:T; try discriminate H.
    - destruct data; try discriminate H;
        try (eexists _, _; eapply merge_scalar; eauto; fail).
      eexists _, _. eapply merge_dict; eauto.
    - eexists _, _. eapply merge_malformed; eauto. }
  exists t, md'. split; [now apply merge_body_iff|exact I].
Qed.

(** C1 (as amended). With two mapping-shaped candidates that both have
    the key [k], with different values, and no candidate processed after
    the later one that is a mapping with [k] or, when [k] is
    ["merged_list"], a sequence, the output of a run that writes it has
    under [k] the value of the later one, whole: the earlier value is
    overwritten, not merged.  A directory whose candidates are mappings,
    scalars or malformed files always gets its output written. *)
Theorem key_union_overwrite_law
        (pre mid post : list dirent) (e1 e2 : dirent)
        (members1 members2 : dict) (k : string) (v1 v2 : json) :
  endswith (filename e1) ".json" = true ->
  target e1 = RegularFile (Json (JObj members1)) ->
  dict_get k members1 = Some v1 ->
  endswith (filename e2) ".json" = true ->
  target e2 = RegularFile (Json (JObj members2)) ->
  NoDup (keys members2) ->
  dict_get k members2 = Some v2 ->
  v1 <> v2 ->
  forallb (fun e => negb (touches k e)) post = true ->
  let listing := pre ++ e1 :: mid ++ e2 :: post in
  (forall t, Merge.main listing = (t, Return tt) ->
             exists md, written t = [("merged_output.json", JObj md)]
                        /\ dict_get k md = Some v2)
  /\ (forallb mapping_or_skipped listing = true ->
      snd (Merge.main listing) = Return tt).
Proof.
  intros N1 T1 G1 N2 T2 ND G2 D F listing. split.
  - intros t E.
    destruct (merge_main_returned_inv _ _ E) as (t0 & md & L & W).
    exists md. split; [exact W|].
    unfold listing in L.
    change (pre ++ e1 :: mid ++ e2 :: post)
      with (pre ++ (e1 :: mid) ++ e2 :: post) in L.
    rewrite app_assoc in L. unfold Merge.loop in L.
    rewrite for_each_app in L. apply bind_returned_inv in L.
    destruct L as (ta & mda & tb & _ & L & _).
    rewrite for_each_cons, (bind_returned _ _ _ _ (merge_body_dict mda e2 _ N2 T2))
      in L.
    destruct (for_each Merge.body (dict_update mda members2) post)
      as [tc rc] eqn:P.
    cbn in L. inversion L; subst.
    rewrite (merge_loop_untouched k post _ _ _ P F).
    apply dict_get_update_In; [exact ND|]. now apply dict_get_In.
  - intros M.
    destruct (for_each_total Merge.body (fun _ => True) mapping_or_skipped
                merge_step_total_mapping listing [] I M) as (t & md & L & _).
    fold (Merge.loop [] listing) in L.
    now rewrite (merge_main_returned _ _ _ L).
Qed.

Lemma key_union_overwrite_law_witness :
  exists md,
    written (fst (Merge.main
         [Samples.file "a.json" (JObj [("k", JObj [("x", JInt 1)]); ("y", JNull)]);
          Samples.file "b.json" (JObj [("k", JObj [("z", JInt 2)])]);
          Samples.file "c.json" (JArr [JInt 3])]))
    = [("merged_output.json", JObj md)]
    /\ dict_get "k" md = Some (JObj [("z", JInt 2)]).
Proof.
  refine (proj1 (key_union_overwrite_law
    [] [] [Samples.file "c.json" (JArr [JInt 3])]
    (Samples.file "a.json" (JObj [("k", JObj [("x", JInt 1)]); ("y", JNull)]))
    (Samples.file "b.json" (JObj [("k", JObj [("z", JInt 2)])]))
    _ _ "k" (JObj [("x", JInt 1)]) (JObj [("z", JInt 2)])
    eq_refl eq_refl eq_refl eq_refl eq_refl _ eq_refl _ eq_refl) _ eq_refl).
  - repeat constructor. now intros [].
  - discriminate.
Defined.

(** C1, as stated, fails for the key ["merged_list"]: a sequence-shaped
    file processed after the two mappings extends the later mapping's
    value, so the output holds more than that value. *)
Lemma later_sequence_extends_the_last_value :
  Merge.main [Samples.file "a.json" (JObj [("merged_list", JArr [JInt 1])]);
              Samples.file "b.json" (JObj [("merged_list", JArr [JInt 2])]);
              Samples.file "c.json" (JArr [JInt 3])]
  = ([Open "./data/plans/book14/a.json"; Open "./data/plans/book14/b.json";
      Open "./data/plans/book14/c.json";
      Dump "merged_output.json"
        (JObj [("merged_list", JArr [JInt 2; JInt 3])]);
      Print Merge.done_line],
     Return tt)
  /\ dict_get "merged_list" [("merged_list", JArr [JInt 2; JInt 3])]
     <> Some (JArr [JInt 2]).
Proof. split; [reflexivity|discriminate]. Qed.

(** ** The accumulator is a dict *)

(** Whatever the files hold, the keys of the Key-Union accumulator stay
    unique. *)
Lemma merge_step_keys_unique md e t md' :
  merge_step md e t (Return md') -> NoDup (keys md) -> NoDup (keys md').
Proof.
  intros S ND. inversion S; subst; auto.
  - now apply dict_update_NoDup.
  - now repeat apply dict_set_NoDup.
  - now apply dict_set_NoDup.
Qed.

Lemma merge_loop_keys_unique listing md t md' :
  Merge.loop md listing = (t, Return md') ->
  NoDup (keys md) -> NoDup (keys md').
Proof.
  unfold Merge.loop. revert md t.
  induction listing as [|e listing IH]; intros md t L ND.
  - now inversion L; subst.
  - rewrite for_each_cons in L.
    apply bind_returned_inv in L. destruct L as (t1 & md1 & t2 & B & L & ->).
    apply merge_body_iff in B.
    apply (IH _ _ L). now apply (merge_step_keys_unique _ _ _ _ B).
Qed.

(** * Further properties of the two scripts *)

(** ** [dict.update] *)

Lemma dict_get_None_has_key k d : dict_get k d = None -> has_key k d = false.
Proof.
  induction d as [|[k' v'] d IH]; cbn; [reflexivity|].
  destruct (String.eqb k k'); [discriminate|exact IH].
Qed.

Lemma In_has_key k d : In k (keys d) -> has_key k d = true.
Proof.
  unfold has_key, keys.
  induction d as [|[k' v'] d IH]; cbn; [intros []|].
  intros [->|H]; [now rewrite String.eqb_refl|].
  rewrite (IH H). apply orb_true_r.
Qed.

Lemma dict_update_get k d data :
  NoDup (keys data) ->
  dict_get k (dict_update d data)
  = match dict_get k data with
    | Some v => Some v
    | None => dict_get k d
    end.
Proof.
  intros ND. destruct (dict_get k data) as [v|] eqn:G.
  - apply dict_get_update_In; [exact ND|]. now apply dict_get_In.
  - apply dict_get_update_other. now apply dict_get_None_has_key.
Qed.

(** X1. Lookup after [merged_data.update(data)]: a key of [data] has
    [data]'s value, every other key has the value it had. *)
Theorem dict_update_lookup (k : string) (d data : dict) :
  NoDup (keys data) ->
  dict_get k (dict_update d data)
  = match dict_get k data with
    | Some v => Some v
    | None => dict_get k d
    end.
Proof. apply dict_update_get. Qed.

Lemma dict_update_lookup_witness :
  dict_get "a" (dict_update [("a", JInt 1); ("b", JInt 2)]
                            [("c", JNull); ("a", JInt 3)])
  = Some (JInt 3).
Proof.
  refine (dict_update_lookup "a" [("a", JInt 1); ("b", JInt 2)]
            [("c", JNull); ("a", JInt 3)] _).
  repeat constructor; cbn; intuition discriminate.
Defined.

Lemma dict_set_same k v d : dict_get k d = Some v -> dict_set k v d = d.
Proof.
  induction d as [|[k' v'] d IH]; cbn; [discriminate|].
  destruct (String.eqb k k').
  - now intros [= ->].
  - intros G. now rewrite (IH G).
Qed.

Lemma dict_update_same d data :
  (forall kv, In kv data -> dict_get (fst kv) d = Some (snd kv)) ->
  dict_update d data = d.
Proof.
  induction data as [|[k v] data IH]; intros H; [reflexivity|].
  rewrite dict_update_cons, (dict_set_same k v d (H (k, v) (or_introl eq_refl))).
  apply IH. intros kv I. apply H. now right.
Qed.

(** X2. Updating twice with the same dict is updating once: values and
    key order are those of the first update. *)
Theorem dict_update_idempotent (d data : dict) :
  NoDup (keys data) ->
  dict_update (dict_update d data) data = dict_update d data.
Proof.
  intros ND. apply dict_update_same. intros [k v] I.
  now apply dict_get_update_In.
Qed.

Lemma dict_update_idempotent_witness :
  dict_update (dict_update [("a", JInt 1)] [("b", JNull); ("a", JInt 3)])
              [("b", JNull); ("a", JInt 3)]
  = [("a", JInt 3); ("b", JNull)].
Proof.
  refine (dict_update_idempotent [("a", JInt 1)] [("b", JNull); ("a", JInt 3)] _).
  repeat constructor; cbn; intuition discriminate.
Defined.

Lemma dict_set_keys_grow k v d :
  exists extra,
    keys (dict_set k v d) = keys d ++ extra
    /\ incl extra [k]
    /\ (forall k', In k' extra -> ~ In k' (keys d)).
Proof.
  rewrite dict_set_keys. destruct (has_key k d) eqn:H.
  - exists []. rewrite app_nil_r. repeat split; [intros ? []|intros ? []].
  - exists [k]. repeat split; [apply incl_refl|].
    intros k' [<-|[]] I. apply In_has_key in I. congruence.
Qed.

Lemma dict_update_keys_grow data d :
  exists extra,
    keys (dict_update d data) = keys d ++ extra
    /\ incl extra (keys data)
    /\ (forall k, In k extra -> ~ In k (keys d)).
Proof.
  revert d. induction data as [|[k v] data IH]; intros d.
  - exists []. cbn. rewrite app_nil_r. repeat split; [intros ? []|intros ? []].
  - rewrite dict_update_cons.
    destruct (IH (dict_set k v d)) as (x2 & E2 & I2 & N2).
    destruct (dict_set_keys_grow k v d) as (x1 & E1 & I1 & N1).
    exists (x1 ++ x2). rewrite E2, E1, app_assoc. split; [reflexivity|]. split.
    + apply incl_app.
      * intros a Ha. apply I1 in Ha. destruct Ha as [<-|[]]. now left.
      * intros a Ha. right. now apply I2.
    + intros a Ha. apply in_app_or in Ha. destruct Ha as [Ha|Ha].
      * now apply N1.
      * intros Hd. apply (N2 a Ha). rewrite E1. apply in_or_app. now left.
Qed.

(** X3. [merged_data.update(data)] never moves or removes a key: the
    keys already there keep their order in front, and the keys added
    behind them are keys of [data] that were not there. *)
Theorem dict_update_keeps_positions (d data : dict) :
  exists extra,
    keys (dict_update d data) = keys d ++ extra
    /\ incl extra (keys data)
    /\ (forall k, In k extra -> ~ In k (keys d)).
Proof. apply dict_update_keys_grow. Qed.

(** X4. Updates with dicts that share no key commute, as far as lookup
    goes (the key order may differ). *)
Theorem dict_update_disjoint_commute (d a b : dict) :
  NoDup (keys a) -> NoDup (keys b) ->
  (forall k, In k (keys a) -> ~ In k (keys b)) ->
  forall k,
    dict_get k (dict_update (dict_update d a) b)
    = dict_get k (dict_update (dict_update d b) a).
Proof.
  intros Na Nb D k. rewrite !dict_update_get by assumption.
  destruct (dict_get k a) as [va|] eqn:Ga;
    destruct (dict_get k b) as [vb|] eqn:Gb; try reflexivity.
  exfalso. apply (D k).
  - apply has_key_In. apply In_has_key.
    apply dict_get_In in Ga. now apply (in_map fst) in Ga.
  - apply dict_get_In in Gb. now apply (in_map fst) in Gb.
Qed.

Lemma dict_update_disjoint_commute_witness :
  dict_get "y" (dict_update (dict_update [("x", JNull)] [("x", JInt 1)])
                            [("y", JInt 2)])
  = dict_get "y" (dict_update (dict_update [("x", JNull)] [("y", JInt 2)])
                              [("x", JInt 1)]).
Proof.
  refine (dict_update_disjoint_commute [("x", JNull)] [("x", JInt 1)]
            [("y", JInt 2)] _ _ _ "y").
  - repeat constructor; cbn; intuition discriminate.
  - repeat constructor; cbn; intuition discriminate.
  - cbn. intros k [<-|[]] [C|[]]. discriminate C.
Defined.

(** ** The keys of the Key-Union output *)

Lemma merge_step_keys_grow md e t md' :
  merge_step md e t (Return md') ->
  exists extra,
    keys md' = keys md ++ extra
    /\ (forall k, In k extra -> touches k e = true).
Proof.
  intros S.
  assert (forall items,
             endswith (filename e) ".json" = true ->
             target e = RegularFile (Json (JArr items)) ->
             touches "merged_list" e = true) as Q.
  { intros items N T. unfold touches, sequence_of, has_json_name.
    rewrite N, T. cbn. apply orb_true_r. }
  inversion S; subst;
    try (exists []; rewrite app_nil_r; split; [reflexivity|intros ? []]).
  - destruct (dict_update_keys_grow members md) as (extra & E & I & _).
    exists extra. split; [exact E|].
    intros k Hk. unfold touches, mapping_with_key, has_json_name.
    match goal with H : endswith _ _ = true |- _ => rewrite H end.
    match goal with H : target _ = _ |- _ => rewrite H end.
    cbn. rewrite (In_has_key k members (I k Hk)). reflexivity.
  - destruct (dict_set_keys_grow "merged_list" (JArr []) md)
      as (x1 & E1 & I1 & _).
    cbn [app].
    destruct (dict_set_keys_grow "merged_list" (JArr items)
                (dict_set "merged_list" (JArr []) md)) as (x2 & E2 & I2 & _).
    exists (x1 ++ x2). rewrite E2, E1, app_assoc. split; [reflexivity|].
    intros k Hk. apply in_app_or in Hk.
    destruct Hk as [Hk|Hk]; [apply I1 in Hk|apply I2 in Hk];
      destruct Hk as [<-|[]]; eapply Q; eauto.
  - destruct (dict_set_keys_grow "merged_list" (JArr (old ++ items)) md)
      as (x1 & E1 & I1 & _).
    exists x1. split; [exact E1|].
    intros k Hk. apply I1 in Hk. destruct Hk as [<-|[]]. eapply Q; eauto.
Qed.

Lemma merge_loop_keys_grow listing md t md' :
  Merge.loop md listing = (t, Return md') ->
  exists extra,
    keys md' = keys md ++ extra
    /\ (forall k, In k extra -> exists e, In e listing /\ touches k e = true).
Proof.
  unfold Merge.loop. revert md t.
  induction listing as [|e listing IH]; intros md t L.
  - inversion L; subst. exists []. rewrite app_nil_r.
    split; [reflexivity|intros ? []].
  - rewrite for_each_cons in L.
    apply bind_returned_inv in L. destruct L as (t1 & md1 & t2 & B & L & ->).
    apply merge_body_iff, merge_step_keys_grow in B.
    destruct B as (x1 & E1 & T1). destruct (IH _ _ L) as (x2 & E2 & T2).
    exists (x1 ++ x2). rewrite E2, E1, app_assoc. split; [reflexivity|].
    intros k Hk. apply in_app_or in Hk. destruct Hk as [Hk|Hk].
    + exists e. split; [now left|now apply T1].
    + destruct (T2 k Hk) as (e' & I & T). exists e'. split; [now right|exact T].
Qed.

(** X5. The keys of the document [merge.py] writes are unique, and
    each of them comes from the input: some candidate is a mapping with
    that key, or the key is ["merged_list"] and some candidate is a
    sequence. *)
Theorem merge_output_keys (listing : list dirent) (t : list event) :
  Merge.main listing = (t, Return tt) ->
  exists md,
    written t = [("merged_output.json", JObj md)]
    /\ NoDup (keys md)
    /\ (forall k, In k (keys md) ->
                  exists e, In e listing /\ touches k e = true).
Proof.
  intros E. destruct (merge_main_returned_inv _ _ E) as (t0 & md & L & W).
  exists md. split; [exact W|]. split.
  - apply (merge_loop_keys_unique _ _ _ _ L). constructor.
  - destruct (merge_loop_keys_grow _ _ _ _ L) as (extra & K & T).
    intros k Hk. rewrite K in Hk. now apply T.
Qed.

Lemma merge_output_keys_witness :
  exists md,
    written (fst (Merge.main [Samples.file "a.json" (JObj [("k", JInt 1)]);
                              Samples.file "b.json" (JArr [JInt 2])]))
    = [("merged_output.json", JObj md)]
    /\ NoDup (keys md)
    /\ (forall k, In k (keys md) ->
                  exists e,
                    In e [Samples.file "a.json" (JObj [("k", JInt 1)]);
                          Samples.file "b.json" (JArr [JInt 2])]
                    /\ touches k e = true).
Proof.
  exact (merge_output_keys
           [Samples.file "a.json" (JObj [("k", JInt 1)]);
            Samples.file "b.json" (JArr [JInt 2])] _ eq_refl).
Defined.

(** X6. During a run of [merge.py] a key, once in the accumulator,
    keeps its position: after each further part of the listing the old
    keys are still there, in the same order, in front of the new ones. *)
Theorem merge_keys_keep_their_order
        (done todo : list dirent) (t t' : list event) (md md' : dict) :
  Merge.loop [] done = (t, Return md) ->
  Merge.loop md todo = (t', Return md') ->
  Merge.loop [] (done ++ todo) = (t ++ t', Return md')
  /\ exists extra, keys md' = keys md ++ extra.
Proof.
  intros L1 L2. split.
  - unfold Merge.loop in *.
    now rewrite for_each_app, (bind_returned _ _ _ _ L1), L2.
  - destruct (merge_loop_keys_grow _ _ _ _ L2) as (extra & K & _).
    now exists extra.
Qed.

Lemma merge_keys_keep_their_order_witness :
  exists extra,
    keys [("a", JInt 9); ("b", JInt 2); ("c", JNull)]
    = keys [("a", JInt 1); ("b", JInt 2)] ++ extra.
Proof.
  exact (proj2 (merge_keys_keep_their_order
    [Samples.file "1.json" (JObj [("a", JInt 1); ("b", JInt 2)])]
    [Samples.file "2.json" (JObj [("c", JNull); ("a", JInt 9)])]
    _ _ _ _ eq_refl eq_refl)).
Defined.

(** ** Runs ended by an exception *)






(** X8. In [merge.py], once the entries before it went through, a
    candidate that is a directory ends the run with [IsADirectoryError],
    one whose bytes are not UTF-8 with [UnicodeDecodeError], and a sequence
    arriving while ["merged_list"] holds something that is not a list with
    [AttributeError]; the candidate was opened, nothing after it is, and
    nothing is printed or written any more. *)
Theorem merge_uncaught_exceptions
        (pre post : list dirent) (e : dirent) (t0 : list event) (md : dict) :
  Merge.loop [] pre = (t0, Return md) ->
  endswith (filename e) ".json" = true ->
  (target e = Directory ->
   Merge.main (pre ++ e :: post)
   = (t0 ++ [Open (merge_path e)], Raise IsADirectoryError))
  /\ (target e = RegularFile Undecodable ->
      Merge.main (pre ++ e :: post)
      = (t0 ++ [Open (merge_path e)], Raise UnicodeDecodeError))
  /\ (forall items v,
         target e = RegularFile (Json (JArr items)) ->
         dict_get "merged_list" md = Some v ->
         isinstance_list v = false ->
         Merge.main (pre ++ e :: post)
         = (t0 ++ [Open (merge_path e)], Raise AttributeError)).
Proof.
  intros L N.
  assert (forall x,
             merge_step md e [Open (merge_path e)] (Raise x) ->
             Merge.main (pre ++ e :: post)
             = (t0 ++ [Open (merge_path e)], Raise x)) as K.
  { intros x S. apply merge_body_iff in S.
    unfold Merge.main, Merge.loop in *.
    now rewrite for_each_app, (bind_returned _ _ _ _ L), for_each_cons, S. }
  repeat split.
  - intros T. apply K. now apply merge_directory.
  - intros T. apply K. now apply merge_undecodable.
  - intros items v T G V. apply K. eapply merge_list_no_extend; eauto.
Qed.

Lemma merge_uncaught_exceptions_witness :
  Merge.main ([Samples.file "a.json" (JObj [("merged_list", JStr "s")])]
              ++ Samples.file "b.json" (JArr [JInt 2])
              :: [Samples.file "c.json" (JObj [])])
  = ([Open "./data/plans/book14/a.json"]
     ++ [Open (merge_path (Samples.file "b.json" (JArr [JInt 2])))],
     Raise AttributeError).
Proof.
  exact (proj2 (proj2 (merge_uncaught_exceptions
    [Samples.file "a.json" (JObj [("merged_list", JStr "s")])]
    [Samples.file "c.json" (JObj [])]
    (Samples.file "b.json" (JArr [JInt 2])) _ _ eq_refl eq_refl))
    [JInt 2] (JStr "s") eq_refl eq_refl eq_refl).
Defined.

(** X9. In [merge_json.py] the [try] is around the [open] too, but it
    only catches [JSONDecodeError]: once the entries before it went
    through, a candidate that is a directory ends the run with
    [IsADirectoryError] and one whose bytes are not UTF-8 with
    [UnicodeDecodeError]; nothing after it is opened and nothing is
    written. *)
Theorem merge_json_uncaught_exceptions
        (pre post : list dirent) (e : dirent) (t0 : list event)
        (plans : list json) :
  MergeJson.loop [] pre = (t0, Return plans) ->
  endswith (filename e) ".json" = true ->
  (target e = Directory ->
   MergeJson.main (pre ++ e :: post)
   = (t0 ++ [Open (merge_json_path e)], Raise IsADirectoryError))
  /\ (target e = RegularFile Undecodable ->
      MergeJson.main (pre ++ e :: post)
      = (t0 ++ [Open (merge_json_path e)], Raise UnicodeDecodeError)).
Proof.
  intros L N.
  assert (forall x,
             merge_json_step plans e [Open (merge_json_path e)] (Raise x) ->
             MergeJson.main (pre ++ e :: post)
             = (t0 ++ [Open (merge_json_path e)], Raise x)) as K.
  { intros x S. apply merge_json_body_iff in S.
    unfold MergeJson.main, MergeJson.loop in *.
    now rewrite for_each_app, (bind_returned _ _ _ _ L), for_each_cons, S. }
  split.
  - intros T. apply K. now apply collect_directory.
  - intros T. apply K. now apply collect_undecodable.
Qed.

Lemma merge_json_uncaught_exceptions_witness :
  MergeJson.main ([Samples.file "a.json" (JInt 1)]
                  ++ mkDirent "b.json" (RegularFile Undecodable)
                  :: [Samples.file "c.json" (JObj [])])
  = ([Open "Data/plans/a.json"]
     ++ [Open (merge_json_path (mkDirent "b.json" (RegularFile Undecodable)))],
     Raise UnicodeDecodeError).
Proof.
  exact (proj2 (merge_json_uncaught_exceptions
    [Samples.file "a.json" (JInt 1)] [Samples.file "c.json" (JObj [])]
    (mkDirent "b.json" (RegularFile Undecodable)) _ _ eq_refl eq_refl)
    eq_refl).
Defined.

(** ** Which files are opened *)

Lemma for_each_opened_all {A} (body : A -> dirent -> io A) (dir : string) :
  (forall acc e,
      opened (fst (body acc e))
      = if has_json_name e then [os_path_join dir (filename e)] else []) ->
  forall listing acc t acc',
    for_each body acc listing = (t, Return acc') ->
    opened t
    = map (fun e => os_path_join dir (filename e)) (filter has_json_name listing).
Proof.
  intros Hbody. induction listing as [|e listing IH]; intros acc t acc' L.
  - now inversion L.
  - rewrite for_each_cons in L.
    apply bind_returned_inv in L. destruct L as (t1 & a1 & t2 & B & L & ->).
    specialize (Hbody acc e). rewrite B in Hbody. cbn [fst] in Hbody.
    rewrite opened_app, Hbody, (IH _ _ _ L). cbn [filter].
    now destruct (has_json_name e).
Qed.

(** X10. A run that ends normally has opened every candidate exactly
    once, in listing order, and nothing else; this holds for both
    scripts. *)
Theorem candidates_opened_once_in_order (listing : list dirent) :
  (forall t, Merge.main listing = (t, Return tt) ->
             opened t = map merge_path (filter has_json_name listing))
  /\ (forall t, MergeJson.main listing = (t, Return tt) ->
                opened t = map merge_json_path (filter has_json_name listing)).
Proof.
  split; intros t E.
  - rewrite <- (f_equal fst E : fst (Merge.main listing) = t).
    rewrite merge_main_opened.
    unfold Merge.main in E.
    destruct (Merge.loop [] listing) as [t0 [md|x]] eqn:L; [|discriminate E].
    apply (for_each_opened_all Merge.body Merge.folder_path merge_body_opened
             _ _ _ _ L).
  - rewrite <- (f_equal fst E : fst (MergeJson.main listing) = t).
    rewrite merge_json_main_opened.
    unfold MergeJson.main in E.
    destruct (MergeJson.loop [] listing) as [t0 [md|x]] eqn:L; [|discriminate E].
    apply (for_each_opened_all MergeJson.body MergeJson.plans_dir
             merge_json_body_opened _ _ _ _ L).
Qed.

Lemma candidates_opened_once_in_order_witness :
  opened (fst (Merge.main [Samples.file "b.json" JNull;
                           mkDirent "notes" Directory;
                           Samples.broken "a.json"]))
  = map merge_path [Samples.file "b.json" JNull; Samples.broken "a.json"].
Proof.
  exact (proj1 (candidates_opened_once_in_order
    [Samples.file "b.json" JNull; mkDirent "notes" Directory;
     Samples.broken "a.json"]) _ eq_refl).
Defined.

(** ** Counting in the List-Collection aggregator *)

Lemma merge_json_loop_returned_loads listing plans t plans' :
  MergeJson.loop plans listing = (t, Return plans') ->
  forallb loads_or_skips listing = true.
Proof.
  intros L.
  destruct (forallb loads_or_skips listing) eqn:F; [reflexivity|].
  unfold MergeJson.loop in L. revert plans t L.
  induction listing as [|e listing IH]; intros plans t L; [discriminate F|].
  rewrite for_each_cons in L.
  apply bind_returned_inv in L. destruct L as (t1 & a1 & t2 & B & L & ->).
  cbn in F. apply andb_false_iff in F. destruct F as [F|F].
  - apply merge_json_body_iff in B. exfalso. clear -B F.
    unfold loads_or_skips, has_json_name in F.
    inversion B; subst;
      match goal with H : endswith _ _ = _ |- _ => rewrite H in F end;
      try match goal with H : target _ = _ |- _ => rewrite H in F end;
      discriminate F.
  - exact (IH F _ _ L).
Qed.

Lemma count_balance listing :
  forallb loads_or_skips listing = true ->
  List.length (flat_map parsed listing) + List.length (filter is_invalid listing)
  = List.length (filter has_json_name listing).
Proof.
  induction listing as [|e listing IH]; [reflexivity|].
  cbn [forallb flat_map filter]. intros F.
  apply andb_true_iff in F. destruct F as [Fe F]. specialize (IH F).
  rewrite length_app.
  unfold loads_or_skips, parsed, is_invalid in *.
  destruct (has_json_name e); cbn in *; [|exact IH].
  destruct (target e) as [|[data|err|]]; try discriminate Fe; cbn; lia.
Qed.

(** X11. In a run of [merge_json.py] that ends normally every candidate
    is accounted for: the number of merged documents plus the number of
    files skipped as malformed is the number of entries named [*.json],
    and one line was printed per skipped file, plus the completion line. *)
Theorem merge_json_count_balance (listing : list dirent) (t : list event) :
  MergeJson.main listing = (t, Return tt) ->
  exists all_plans,
    written t = [("Data/merged_plans.json", JArr all_plans)]
    /\ List.length all_plans + List.length (filter is_invalid listing)
       = List.length (filter has_json_name listing)
    /\ List.length (stdout t) = List.length (filter is_invalid listing) + 1.
Proof.
  unfold MergeJson.main. intros E.
  destruct (MergeJson.loop [] listing) as [t0 [plans|x]] eqn:L;
    [|discriminate E].
  pose proof (merge_json_loop_returned_loads _ _ _ _ L) as F.
  destruct (merge_json_loop_returned _ _ _ _ L) as (-> & O & W).
  cbn in E. inversion E; subst. exists (flat_map parsed listing).
  rewrite written_app, stdout_app, W, O, length_app. cbn.
  split; [reflexivity|]. split; [now apply count_balance|].
  f_equal. clear. induction listing as [|e listing IH]; [reflexivity|].
  cbn [flat_map filter]. rewrite length_app, IH.
  unfold merge_json_diagnostics, is_invalid.
  destruct (has_json_name e); [|reflexivity].
  now destruct (target e) as [|[data|err|]].
Qed.

Lemma merge_json_count_balance_witness :
  exists all_plans,
    written (fst (MergeJson.main
                    [Samples.file "a.json" (JInt 1); Samples.broken "b.json";
                     mkDirent "c.txt" Directory]))
    = [("Data/merged_plans.json", JArr all_plans)]
    /\ List.length all_plans + 1 = 2
    /\ List.length
         (stdout (fst (MergeJson.main
                    [Samples.file "a.json" (JInt 1); Samples.broken "b.json";
                     mkDirent "c.txt" Directory])))
       = 1 + 1.
Proof.
  exact (merge_json_count_balance
    [Samples.file "a.json" (JInt 1); Samples.broken "b.json";
     mkDirent "c.txt" Directory] _ eq_refl).
Defined.

(** ** Listing order and the List-Collection aggregator *)

Lemma forallb_Permutation {X} (p : X -> bool) xs ys :
  Permutation xs ys -> forallb p xs = true -> forallb p ys = true.
Proof.
  intros P F. apply forallb_forall. intros y I.
  apply (proj1 (forallb_forall p xs) F).
  apply (Permutation_in y (Permutation_sym P) I).
Qed.

(** X12. The order in which [os.listdir] lists the directory changes
    neither whether [merge_json.py] ends normally nor which documents it
    merges: for a listing in another order the output array is a
    permutation of the first one, and the completion line is the same. *)
Theorem merge_json_listing_order
        (listing listing' : list dirent) (t : list event) :
  Permutation listing listing' ->
  MergeJson.main listing = (t, Return tt) ->
  exists t' all_plans all_plans',
    MergeJson.main listing' = (t', Return tt)
    /\ written t = [("Data/merged_plans.json", JArr all_plans)]
    /\ written t' = [("Data/merged_plans.json", JArr all_plans')]
    /\ Permutation all_plans all_plans'
    /\ MergeJson.done_line all_plans = MergeJson.done_line all_plans'.
Proof.
  intros P E. unfold MergeJson.main in *.
  destruct (MergeJson.loop [] listing) as [t0 [plans|x]] eqn:L;
    [|discriminate E].
  pose proof (merge_json_loop_returned_loads _ _ _ _ L) as F.
  apply (forallb_Permutation _ _ _ P) in F.
  destruct (merge_json_loop_returned _ _ _ _ L) as (-> & _ & W).
  destruct (MergeJson.loop [] listing') as [t1 [plans'|x]] eqn:L'.
  - destruct (merge_json_loop_returned _ _ _ _ L') as (-> & _ & W').
    cbn in E. inversion E; subst. cbn [bind emit app].
    eexists _, _, _. split; [reflexivity|].
    rewrite !written_app, W, W'. cbn.
    split; [reflexivity|]. split; [reflexivity|].
    pose proof (Permutation_flat_map parsed P) as Q.
    split; [exact Q|].
    unfold MergeJson.done_line. now rewrite (Permutation_length Q).
  - apply merge_json_loop_raised in L'. destruct L' as [C _]. congruence.
Qed.

Lemma merge_json_listing_order_witness :
  exists t' all_plans all_plans',
    MergeJson.main [Samples.file "b.json" (JInt 2); Samples.file "a.json" (JInt 1)]
    = (t', Return tt)
    /\ written (fst (MergeJson.main [Samples.file "a.json" (JInt 1);
                                    Samples.file "b.json" (JInt 2)]))
       = [("Data/merged_plans.json", JArr all_plans)]
    /\ written t' = [("Data/merged_plans.json", JArr all_plans')]
    /\ Permutation all_plans all_plans'
    /\ MergeJson.done_line all_plans = MergeJson.done_line all_plans'.
Proof.
  exact (merge_json_listing_order
    [Samples.file "a.json" (JInt 1); Samples.file "b.json" (JInt 2)]
    [Samples.file "b.json" (JInt 2); Samples.file "a.json" (JInt 1)]
    _ (perm_swap _ _ []) eq_refl).
Defined.

(** ** [str.endswith] and the extension test *)

Lemma endswith_self s : endswith s s = true.
Proof.
  destruct s; unfold endswith; fold endswith; now rewrite String.eqb_refl.
Qed.

Lemma endswith_inv s suffix :
  endswith s suffix = true -> exists p, s = (p ++ suffix)%string.
Proof.
  induction s as [|c s IH]; unfold endswith; fold endswith; intros H;
    apply orb_true_iff in H; destruct H as [H|H].
  - apply String.eqb_eq in H. now exists ""%string.
  - discriminate H.
  - apply String.eqb_eq in H. now exists ""%string.
  - destruct (IH H) as [p ->]. now exists (String c p).
Qed.

Lemma string_length_append a b :
  String.length (a ++ b)%string = String.length a + String.length b.
Proof.
  induction a as [|c a IH]; [reflexivity|].
  change (String c a ++ b)%string with (String c (a ++ b)%string).
  cbn [String.length]. now rewrite IH.
Qed.

Lemma append_same_length_tail p q a b :
  String.length a = String.length b ->
  (p ++ a)%string = (q ++ b)%string -> a = b.
Proof.
  revert q. induction p as [|c p IH]; intros q Hlen E.
  - change (""%string ++ a)%string with a in E. subst a.
    rewrite string_length_append in Hlen.
    destruct q; [reflexivity|cbn in Hlen; lia].
  - change (String c p ++ a)%string with (String c (p ++ a)%string) in E.
    destruct q as [|c' q].
    + change (""%string ++ b)%string with b in E. subst b.
      cbn [String.length] in Hlen. rewrite string_length_append in Hlen. lia.
    + change (String c' q ++ b)%string with (String c' (q ++ b)%string) in E.
      inversion E; subst. now apply (IH q).
Qed.

(** X13. The extension test [filename.endswith(".json")] holds exactly
    for the names that are some text followed by the five bytes [.json];
    in particular the name [.json] itself passes, and so does any name
    with a prefix in front of a name that passes. *)
Theorem extension_test_spec (name : string) :
  endswith name ".json" = true <-> exists p, name = (p ++ ".json")%string.
Proof.
  split; [apply endswith_inv|].
  intros [p ->]. apply endswith_app, endswith_self.
Qed.

(** X14. The test compares bytes: a name whose last five bytes are not
    exactly [.json], whatever precedes them (so [.JSON], [.Json], [.jsn1],
    ...), is not a candidate, and neither is a name shorter than five
    bytes; both scripts pass over such an entry without opening it. *)
Theorem other_tails_are_skipped (e : dirent) :
  (String.length (filename e) < 5
   \/ exists p tail,
       filename e = (p ++ tail)%string
       /\ String.length tail = 5 /\ tail <> ".json"%string) ->
  endswith (filename e) ".json" = false
  /\ (forall md, Merge.body md e = ret md)
  /\ (forall all_plans, MergeJson.body all_plans e = ret all_plans).
Proof.
  intros H.
  assert (endswith (filename e) ".json" = false) as N.
  { destruct (endswith (filename e) ".json") eqn:E; [exfalso|reflexivity].
    apply endswith_inv in E. destruct E as [q E].
    destruct H as [H|(p & tail & F & Hlen & D)].
    - rewrite E, string_length_append in H. cbn in H. lia.
    - apply D. rewrite F in E.
      now apply (append_same_length_tail p q tail ".json"). }
  split; [exact N|]. split; intros acc.
  - now apply merge_body_other_name.
  - now apply merge_json_body_other_name.
Qed.

Lemma other_tails_are_skipped_witness :
  endswith "Plan.Json" ".json" = false.
Proof.
  refine (proj1 (other_tails_are_skipped (mkDirent "Plan.Json" Directory) _)).
  right. exists "Plan"%string, ".Json"%string.
  repeat split. discriminate.
Defined.

(** ** Directories of one shape *)

Lemma merge_loop_mappings listing md :
  forallb mapping_or_skipped listing = true ->
  exists t,
    Merge.loop md listing
    = (t, Return (fold_left dict_update (flat_map mapping_of listing) md)).
Proof.
  unfold Merge.loop. revert md.
  induction listing as [|e listing IH]; intros md F; [now exists []|].
  cbn [forallb] in F. apply andb_true_iff in F. destruct F as [Fe F].
  assert (exists t,
             Merge.body md e
             = (t, Return (fold_left dict_update (mapping_of e) md))) as [t1 B].
  { unfold mapping_or_skipped, mapping_of, has_json_name in *.
    destruct (endswith (filename e) ".json") eqn:N;
      [|eexists; apply merge_body_iff; now apply merge_other_name].
    destruct (target e) as [|[data|err|]] eqn:T; try discriminate Fe.
    - destruct data; try discriminate Fe;
        try (eexists; apply merge_body_iff; eapply merge_scalar; eauto; fail).
      eexists. apply merge_body_iff. eapply merge_dict; eauto.
    - eexists. apply merge_body_iff. eapply merge_malformed; eauto. }
  destruct (IH (fold_left dict_update (mapping_of e) md) F) as [t2 L].
  exists (t1 ++ t2).
  rewrite for_each_cons, (bind_returned _ _ _ _ B), L.
  cbn [fst snd flat_map]. now rewrite fold_left_app.
Qed.

(** X15. When no candidate is a sequence (each is a mapping, a scalar
    or malformed, and none is a directory or undecodable), [merge.py]
    ends normally and writes the empty dict updated with each mapping in
    turn, in listing order. *)
Theorem merge_mappings_only (listing : list dirent) :
  forallb mapping_or_skipped listing = true ->
  exists t,
    Merge.main listing = (t, Return tt)
    /\ written t
       = [("merged_output.json",
           JObj (fold_left dict_update (flat_map mapping_of listing) []))].
Proof.
  intros F. destruct (merge_loop_mappings listing [] F) as [t0 L].
  eexists. split; [exact (merge_main_returned _ _ _ L)|].
  destruct (merge_loop_quiet _ _ _ _ L) as [W _].
  now rewrite written_app, W.
Qed.

Lemma merge_mappings_only_witness :
  exists t,
    Merge.main [Samples.file "a.json" (JObj [("k", JInt 1); ("x", JNull)]);
                Samples.file "n.json" (JBool true);
                Samples.file "b.json" (JObj [("y", JNull); ("k", JInt 2)])]
    = (t, Return tt)
    /\ written t
       = [("merged_output.json",
           JObj [("k", JInt 2); ("x", JNull); ("y", JNull)])].
Proof.
  exact (merge_mappings_only
    [Samples.file "a.json" (JObj [("k", JInt 1); ("x", JNull)]);
     Samples.file "n.json" (JBool true);
     Samples.file "b.json" (JObj [("y", JNull); ("k", JInt 2)])] eq_refl).
Defined.

Lemma merge_loop_sequences listing o :
  forallb sequence_or_skipped listing = true ->
  exists t,
    Merge.loop (only_reserved o) listing
    = (t, Return (only_reserved (extended o (flat_map sequence_of listing)))).
Proof.
  unfold Merge.loop. revert o.
  induction listing as [|e listing IH]; intros o F; [now exists []|].
  cbn [forallb] in F. apply andb_true_iff in F. destruct F as [Fe F].
  assert (exists t,
             Merge.body (only_reserved o) e
             = (t, Return (only_reserved (extended o (sequence_of e)))))
    as [t1 B].
  { unfold sequence_or_skipped, sequence_of, has_json_name in *.
    destruct (endswith (filename e) ".json") eqn:N;
      [|eexists; apply merge_body_iff; now apply merge_other_name].
    destruct (target e) as [|[data|err|]] eqn:T; try discriminate Fe.
    - destruct data; try discriminate Fe;
        try (eexists; apply merge_body_iff; eapply merge_scalar; eauto; fail).
      destruct o as [old|]; eexists; apply merge_body_iff.
      + replace (only_reserved (extended (Some old) [items]))
          with (dict_set "merged_list" (JArr (old ++ items))
                  (only_reserved (Some old)))
          by (cbn; now rewrite app_nil_r).
        eapply merge_list_more; eauto.
      + replace (only_reserved (extended None [items]))
          with (dict_set "merged_list" (JArr ([] ++ items))
                  (dict_set "merged_list" (JArr []) (only_reserved None)))
          by (cbn; now rewrite app_nil_r).
        eapply merge_list_first; eauto.
    - eexists. apply merge_body_iff. eapply merge_malformed; eauto. }
  destruct (IH (extended o (sequence_of e)) F) as [t2 L].
  exists (t1 ++ t2).
  rewrite for_each_cons, (bind_returned _ _ _ _ B), L.
  cbn [fst snd flat_map]. now rewrite extended_app.
Qed.

(** X16. When no candidate is a mapping (each is a sequence, a scalar
    or malformed, and none is a directory or undecodable), [merge.py]
    ends normally and writes [{}] if there was no sequence at all, and
    otherwise a dict with the single key ["merged_list"] holding the
    elements of all the sequences, in listing order. *)
Theorem merge_sequences_only (listing : list dirent) :
  forallb sequence_or_skipped listing = true ->
  exists t,
    Merge.main listing = (t, Return tt)
    /\ written t
       = [("merged_output.json",
           JObj match flat_map sequence_of listing with
                | [] => []
                | seqs => [("merged_list", JArr (List.concat seqs))]
                end)].
Proof.
  intros F. destruct (merge_loop_sequences listing None F) as [t0 L].
  change (only_reserved None) with (@nil (string * json)) in L.
  eexists. split; [exact (merge_main_returned _ _ _ L)|].
  destruct (merge_loop_quiet _ _ _ _ L) as [W _].
  rewrite written_app, W. cbn [app written flat_map].
  now destruct (flat_map sequence_of listing).
Qed.

Lemma merge_sequences_only_witness :
  exists t,
    Merge.main [Samples.file "a.json" (JArr [JInt 1]);
                Samples.file "e.json" (JArr []);
                Samples.file "b.json" (JArr [JInt 2; JInt 3])]
    = (t, Return tt)
    /\ written t
       = [("merged_output.json",
           JObj [("merged_list", JArr [JInt 1; JInt 2; JInt 3])])].
Proof.
  exact (merge_sequences_only
    [Samples.file "a.json" (JArr [JInt 1]); Samples.file "e.json" (JArr []);
     Samples.file "b.json" (JArr [JInt 2; JInt 3])] eq_refl).
Defined.
